(** * ubipoller: the poll / extract / publish cycle of [main.go]

    A shallow embedding of [main.go].  Go structs are records, a slice is a
    [list], Go's [int] is a [Z] (the program only copies these values, it
    never computes with them), a Go [string] is a [string] of bytes and a Go
    [error] is the text of its [Error()] ([None] is [nil]).

    Everything the program does to its surroundings (the logger, the HTTP
    client, the MQTT client, the ticker) is recorded as an [Event]; what the
    surroundings answer is read from an [Env].  A computation is a function
    from a [World] to an outcome, the next [World] and the events it
    emitted, in program order. *)

From Stdlib Require Import List String Ascii ZArith Bool Lia PeanoNat.
From Stdlib Require Import DecimalString.
Import ListNotations.

Open Scope string_scope.
Open Scope Z_scope.
Open Scope list_scope.

(** Concatenation of Go strings. *)
Infix "+:+" := String.append (at level 60, right associativity) : string_scope.

Set Implicit Arguments.

(* ------------------------------------------------------------------ *)
(** ** Data model ([main.go], lines 19-105) *)

(** [time.Time], as an instant (nanoseconds since the epoch). *)
Definition Time := Z.

(** A Go [(T, error)] pair of which exactly one side is meaningful. *)
Inductive Result (A : Type) : Type :=
| Ok (a : A)
| Err (e : string).
Arguments Ok {A} a.
Arguments Err {A} e.

(** A Go [error] value: [None] is [nil]. *)
Definition error := option string.

Record CLI := {
  ApiKey : string;
  ApiURL : string;
  MetricType : string;
  MqttBroker : string;
  MqttClientID : string;
  MqttTopic : string;
  MqttUsername : string;
  MqttPassword : string;
  Interval : Z;
  LogLevel : string
}.

Record WANData := {
  AvgLatency : Z;
  DownloadKbps : Z;
  Downtime : Z;
  ISPAsn : string;
  ISPName : string;
  MaxLatency : Z;
  PacketLoss : Z;
  UploadKbps : Z;
  Uptime : Z
}.

Record PeriodData := { WAN : WANData }.

Record Period := {
  Data : PeriodData;
  MetricTime : string;
  Version : string
}.

Record MetricData := {
  md_MetricType : string;
  Periods : list Period;
  SiteId : string;
  HostId : string
}.

Record ISPMetrics := { im_Data : list MetricData }.

Record LatencyMetric := {
  lm_SiteId : string;
  lm_HostId : string;
  lm_Timestamp : string;
  lm_AvgLatency : Z;
  lm_MaxLatency : Z;
  lm_ISPName : string;
  lm_ISPAsn : string;
  lm_PublishedAt : Time
}.

Record UbiquitiClient := {
  apiKey : string;
  baseURL : string
}.

(** The [client] and [logger] members are the collaborators behind the
    events below.  [NewApp] is the only constructor of an [App] and never
    leaves [mqttPublisher] nil, so the publisher is a plain member here and
    the nil test of [Run] (line 196) always succeeds. *)
Record MQTTPublisher := { topic : string }.

Record App := {
  cli : CLI;
  ubiquitiClient : UbiquitiClient;
  mqttPublisher : MQTTPublisher
}.

(* ------------------------------------------------------------------ *)
(** ** Events and the environment *)

Inductive Level := Debug | Info | Error.

Inductive FieldVal :=
| FStr (s : string)
| FInt (n : Z).

(** What the program does to its collaborators. *)
Inductive Event :=
| Log (lvl : Level) (msg : string) (fields : list (string * FieldVal))
| HttpDo (method url : string) (headers : list (string * string))
| MqttPublish (tpc : string) (qos : Z) (retained : bool) (payload : string)
| MqttDisconnect (quiesce : Z)
| TickerStop.

(** What [httpClient.Do] gives back: a transport error, or a response with
    its status code and the body that is read from it afterwards. *)
Inductive HttpReply :=
| NetErr (e : string)
| Resp (status : Z) (body : string).

(** The collaborators' answers.  Blocking operations ([httpClient.Do], a
    publish with its [token.Wait], the [select] of [Run]) are numbered in
    the order the program starts them.

    - [now_at k]: the reading of the [k]-th call of [time.Now];
    - [signal_during n]: the OS delivers SIGINT/SIGTERM while blocking
      operation [n] is pending;
    - [new_request url]: the error of [http.NewRequestWithContext], if any;
    - [http_do n c]: the outcome of [httpClient.Do] started as operation
      [n], where [c] tells whether the request's context is cancelled by
      the time the operation ends (the request is built from [ctx], so the
      transport can see it);
    - [json_decode]: [json.NewDecoder(body).Decode] into an [ISPMetrics];
    - [json_string], [json_time]: the encoders of [encoding/json] for a
      string and of [time.Time.MarshalJSON];
    - [broker_ack n]: [token.Error()] of the publish started as operation
      [n], after [token.Wait()];
    - [select_tick n]: when both cases of the [select] are ready, whether
      the runtime picks the ticker case. *)
Record Env := {
  now_at : nat -> Time;
  signal_during : nat -> bool;
  new_request : string -> error;
  http_do : nat -> bool -> HttpReply;
  json_decode : string -> Result ISPMetrics;
  json_string : string -> string;
  json_time : Time -> Result string;
  broker_ack : nat -> error;
  select_tick : nat -> bool
}.

(** The part of the process state the program's control flow depends on:
    how many clock readings and blocking operations it has made, and
    whether [cancel()] has run on the application context. *)
Record World := {
  w_clock : nat;
  w_ops : nat;
  w_cancelled : bool
}.

(* ------------------------------------------------------------------ *)
(** ** The monad: state, emitted events, and Go panics *)

Inductive Outcome (A : Type) : Type :=
| Done (a : A)
| Panic (msg : string).
Arguments Done {A} a.
Arguments Panic {A} msg.

Definition M (A : Type) : Type := World -> Outcome A * World * list Event.

Definition ret {A} (a : A) : M A := fun w => (Done a, w, []).

Definition bind {A B} (m : M A) (k : A -> M B) : M B :=
  fun w =>
    match m w with
    | (Done a, w1, evs1) =>
        match k a w1 with
        | (o, w2, evs2) => (o, w2, evs1 ++ evs2)
        end
    | (Panic msg, w1, evs1) => (Panic msg, w1, evs1)
    end.

Definition panic {A} (msg : string) : M A := fun w => (Panic msg, w, []).

Definition emit (e : Event) : M unit := fun w => (Done tt, w, [e]).

Declare Scope go_scope.
Delimit Scope go_scope with go.
Notation "x <- m ;; k" := (bind m (fun x => k))
  (at level 61, m at next level, right associativity) : go_scope.
Notation "m ;; k" := (bind m (fun _ => k))
  (at level 61, right associativity) : go_scope.
Open Scope go_scope.

Definition outcome {A} (r : Outcome A * World * list Event) : Outcome A :=
  fst (fst r).
Definition world {A} (r : Outcome A * World * list Event) : World :=
  snd (fst r).
Definition events {A} (r : Outcome A * World * list Event) : list Event :=
  snd r.
Arguments outcome {A} !r /.
Arguments world {A} !r /.
Arguments events {A} !r /.

(** [for _, x := range xs { body x }] *)
Fixpoint forEach {A} (xs : list A) (body : A -> M unit) : M unit :=
  match xs with
  | [] => ret tt
  | x :: rest => body x ;; forEach rest body
  end.

(** Printing of a Go [int] with [%d]. *)
Definition itoa (n : Z) : string := NilZero.string_of_int (Z.to_int n).

Definition len {A} (l : list A) : Z := Z.of_nat (List.length l).

(** The double-quote character. *)
Definition dquote : string := String (ascii_of_nat 34) EmptyString.

Section Program.

Variable env : Env.

(** [logger.WithFields(fields).<Level>(msg)] *)
Definition log (lvl : Level) (msg : string)
    (fields : list (string * FieldVal)) : M unit :=
  emit (Log lvl msg fields).

(** The goroutine of [main] (lines 133-137): on the first signal it logs
    and cancels the application context; it then ends, so later signals
    change nothing. *)
Definition signalHandler : M unit :=
  fun w =>
    if w_cancelled w then (Done tt, w, [])
    else (Done tt,
          {| w_clock := w_clock w; w_ops := w_ops w; w_cancelled := true |},
          [Log Info "Received shutdown signal" []]).

(** Start blocking operation number [w_ops]; while it is pending the
    signal may be delivered.  Returns the operation's number. *)
Definition await : M nat :=
  n <- (fun w => (Done (w_ops w),
                  {| w_clock := w_clock w; w_ops := S (w_ops w);
                     w_cancelled := w_cancelled w |}, [])) ;;
  (if signal_during env n then signalHandler else ret tt) ;;
  ret n.

(** [ctx.Err() != nil] *)
Definition ctxCancelled : M bool := fun w => (Done (w_cancelled w), w, []).

(** [time.Now()] *)
Definition time_Now : M Time :=
  fun w => (Done (now_at env (w_clock w)),
            {| w_clock := S (w_clock w); w_ops := w_ops w;
               w_cancelled := w_cancelled w |}, []).

(** [s[i]] on a slice: a run-time panic when [i] is out of range. *)
Definition index {A} (s : list A) (i : nat) : M A :=
  match nth_error s i with
  | Some x => ret x
  | None => panic "runtime error: index out of range"
  end.

(* ---------------------------------------------------------------- *)
(** ** [extractLatestLatencyMetrics] (lines 236-262) *)

(** The body of the [range] loop, with the slice built so far. *)
Fixpoint extractLoop (datas : list MetricData) (latencyMetrics : list LatencyMetric)
  : M (list LatencyMetric) :=
  match datas with
  | [] => ret latencyMetrics
  | data :: rest =>
      if (len (Periods data) =? 0)%Z then
        extractLoop rest latencyMetrics
      else
        latestPeriod <- index (Periods data) 0 ;;
        now <- time_Now ;;
        let latencyMetric :=
          {| lm_SiteId := SiteId data;
             lm_HostId := HostId data;
             lm_Timestamp := MetricTime latestPeriod;
             lm_AvgLatency := AvgLatency (WAN (Data latestPeriod));
             lm_MaxLatency := MaxLatency (WAN (Data latestPeriod));
             lm_ISPName := ISPName (WAN (Data latestPeriod));
             lm_ISPAsn := ISPAsn (WAN (Data latestPeriod));
             lm_PublishedAt := now |} in
        extractLoop rest (latencyMetrics ++ [latencyMetric])
  end.

Definition extractLatestLatencyMetrics (metrics : ISPMetrics)
  : M (list LatencyMetric) :=
  extractLoop (im_Data metrics) [].

(* ---------------------------------------------------------------- *)
(** ** [GetISPMetrics] (lines 265-296)

    [ctx] is the application context of [main]; its state is
    [w_cancelled].  The request is built with it, so the transport is
    told whether it is cancelled. *)

Definition GetISPMetrics (c : UbiquitiClient) (metricType : string)
  : M (Result ISPMetrics) :=
  let url := baseURL c +:+ "/" +:+ metricType in
  match new_request env url with
  | Some e => ret (Err ("failed to create request: " +:+ e))
  | None =>
      let headers := [("X-API-KEY", apiKey c); ("Accept", "application/json")] in
      log Debug "Making API request" [("url", FStr url)] ;;
      emit (HttpDo "GET" url headers) ;;
      n <- await ;;
      cancelled <- ctxCancelled ;;
      match http_do env n cancelled with
      | NetErr e => ret (Err ("failed to make request: " +:+ e))
      | Resp status body =>
          if negb (status =? 200)%Z then
            ret (Err ("API request failed with status " +:+ itoa status
                      +:+ ": " +:+ body))
          else
            match json_decode env body with
            | Err e => ret (Err ("failed to decode response: " +:+ e))
            | Ok metrics => ret (Ok metrics)
            end
      end
  end.

(* ---------------------------------------------------------------- *)
(** ** [json.Marshal] of a [LatencyMetric]

    The struct tags of [LatencyMetric] (lines 73-82) give the member names;
    [encoding/json] writes the members in declaration order, without
    white space.  Only [time.Time] has an encoder that can fail. *)

Definition json_member (kv : string * string) : string :=
  dquote +:+ fst kv +:+ dquote +:+ ":" +:+ snd kv.

Definition json_object (members : list (string * string)) : string :=
  "{" +:+ String.concat "," (map json_member members) +:+ "}".

Definition json_Marshal (m : LatencyMetric) : Result string :=
  match json_time env (lm_PublishedAt m) with
  | Err e =>
      Err ("json: error calling MarshalJSON for type time.Time: " +:+ e)
  | Ok publishedAt =>
      Ok (json_object
            [("siteId", json_string env (lm_SiteId m));
             ("hostId", json_string env (lm_HostId m));
             ("timestamp", json_string env (lm_Timestamp m));
             ("avgLatency", itoa (lm_AvgLatency m));
             ("maxLatency", itoa (lm_MaxLatency m));
             ("ispName", json_string env (lm_ISPName m));
             ("ispAsn", json_string env (lm_ISPAsn m));
             ("publishedAt", publishedAt)])
  end.

(* ---------------------------------------------------------------- *)
(** ** [PublishLatency] and [Disconnect] (lines 359-388) *)

(** [fmt.Sprintf("%s/%s/latency", baseTopic, siteId)] *)
Definition latencyTopic (baseTopic siteId : string) : string :=
  baseTopic +:+ "/" +:+ siteId +:+ "/latency".

Definition PublishLatency (p : MQTTPublisher) (latencyMetric : LatencyMetric)
    (baseTopic : string) : M error :=
  match json_Marshal latencyMetric with
  | Err e => ret (Some ("failed to marshal latency metric: " +:+ e))
  | Ok payload =>
      let tpc := latencyTopic baseTopic (lm_SiteId latencyMetric) in
      log Debug "Publishing latency metric to MQTT"
        [("topic", FStr tpc);
         ("siteId", FStr (lm_SiteId latencyMetric));
         ("avgLatency", FInt (lm_AvgLatency latencyMetric));
         ("maxLatency", FInt (lm_MaxLatency latencyMetric));
         ("payload_size", FInt (Z.of_nat (String.length payload)))] ;;
      emit (MqttPublish tpc 0 false payload) ;;
      n <- await ;;
      match broker_ack env n with
      | Some e => ret (Some ("failed to publish latency to MQTT: " +:+ e))
      | None => ret None
      end
  end.

Definition Disconnect (p : MQTTPublisher) : M unit :=
  log Info "Disconnecting from MQTT broker" [] ;;
  emit (MqttDisconnect 250).

(* ---------------------------------------------------------------- *)
(** ** [fetchAndPublishMetrics] (lines 209-233) *)

(** The body of the publish loop (lines 225-228). *)
Definition publishOne (a : App) (latencyMetric : LatencyMetric) : M unit :=
  err <- PublishLatency (mqttPublisher a) latencyMetric (MqttTopic (cli a)) ;;
  match err with
  | Some e =>
      log Error "Failed to publish latency metric"
        [("error", FStr e); ("siteId", FStr (lm_SiteId latencyMetric))]
  | None => ret tt
  end.

Definition fetchAndPublishMetrics (a : App) : M error :=
  log Debug "Fetching ISP metrics from Ubiquiti API" [] ;;
  r <- GetISPMetrics (ubiquitiClient a) (MetricType (cli a)) ;;
  match r with
  | Err e => ret (Some ("failed to fetch ISP metrics: " +:+ e))
  | Ok metrics =>
      log Debug "Metrics fetched successfully"
        [("periods_count", FInt (len (im_Data metrics)))] ;;
      latencyMetrics <- extractLatestLatencyMetrics metrics ;;
      log Debug "Extracted latest latency metrics"
        [("sites_count", FInt (len latencyMetrics))] ;;
      forEach latencyMetrics (publishOne a) ;;
      log Info "Latency metrics published successfully"
        [("sites_published", FInt (len latencyMetrics))] ;;
      ret None
  end.

(* ---------------------------------------------------------------- *)
(** ** [Run] (lines 174-206) *)

(** One pass of [for { select { ... } }].  The wait is blocking operation
    [n].  [<-ctx.Done()] is ready exactly when the context is cancelled;
    when the ticker has fired too, Go picks one of the ready cases, which
    is what [select_tick] decides.  With the context not cancelled, the
    wait ends with a tick.  The result is [Some r] when [Run] returns [r]
    and [None] when the loop goes round again. *)
Definition runSelect (a : App) : M (option error) :=
  n <- await ;;
  cancelled <- ctxCancelled ;;
  if cancelled && negb (select_tick env n) then
    log Info "Shutting down application" [] ;;
    Disconnect (mqttPublisher a) ;;
    ret (Some None)
  else
    err <- fetchAndPublishMetrics a ;;
    match err with
    | Some e =>
        log Error "Failed to fetch and publish metrics" [("error", FStr e)]
    | None => ret tt
    end ;;
    ret None.

(** At most [fuel] passes of the loop; [None] when it is still running. *)
Fixpoint runLoop (fuel : nat) (a : App) : M (option error) :=
  match fuel with
  | O => ret None
  | S fuel' =>
      r <- runSelect a ;;
      match r with
      | Some e => ret (Some e)
      | None => runLoop fuel' a
      end
  end.

(** [Run], watched for [fuel] passes of its loop.  [time.NewTicker]
    panics on a non-positive interval; the deferred [ticker.Stop] runs
    when [Run] returns. *)
Definition Run (fuel : nat) (a : App) : M (option error) :=
  log Info "Starting ubipoller application" [] ;;
  log Info "Configuration loaded"
    [("interval", FInt (Interval (cli a)));
     ("metric_type", FStr (MetricType (cli a)));
     ("mqtt_topic", FStr (MqttTopic (cli a)))] ;;
  (if (Interval (cli a) <=? 0)%Z
   then panic "non-positive interval for NewTicker" else ret tt) ;;
  err <- fetchAndPublishMetrics a ;;
  match err with
  | Some e => log Error "Initial metrics fetch failed" [("error", FStr e)]
  | None => ret tt
  end ;;
  r <- runLoop fuel a ;;
  match r with
  | Some e => emit TickerStop ;; ret (Some e)
  | None => ret None
  end.

End Program.

(* ------------------------------------------------------------------ *)
(** ** Reading a run *)

Definition isPublish (e : Event) : bool :=
  match e with
  | MqttPublish _ _ _ _ => true
  | _ => false
  end.

(** The requests handed to the broker client, in order. *)
Definition publishes (evs : list Event) : list Event := filter isPublish evs.

(** The topics of the requests handed to the broker client, in order. *)
Fixpoint publishedTopics (evs : list Event) : list string :=
  match evs with
  | [] => []
  | MqttPublish tpc _ _ _ :: rest => tpc :: publishedTopics rest
  | _ :: rest => publishedTopics rest
  end.

(** The record the extractor builds from a series, its selected period and
    a clock reading (the struct literal of lines 247-256). *)
Definition recordOf (data : MetricData) (latestPeriod : Period) (now : Time)
  : LatencyMetric :=
  {| lm_SiteId := SiteId data;
     lm_HostId := HostId data;
     lm_Timestamp := MetricTime latestPeriod;
     lm_AvgLatency := AvgLatency (WAN (Data latestPeriod));
     lm_MaxLatency := MaxLatency (WAN (Data latestPeriod));
     lm_ISPName := ISPName (WAN (Data latestPeriod));
     lm_ISPAsn := ISPAsn (WAN (Data latestPeriod));
     lm_PublishedAt := now |}.

(** The records of a list of series when the clock has been read [k]
    times before: the functional reading of the extraction loop. *)
Fixpoint latestFrom (env : Env) (k : nat) (datas : list MetricData)
  : list LatencyMetric :=
  match datas with
  | [] => []
  | data :: rest =>
      match Periods data with
      | [] => latestFrom env k rest
      | p :: _ => recordOf data p (now_at env k) :: latestFrom env (S k) rest
      end
  end.

(** How many series have a period. *)
Fixpoint populated (datas : list MetricData) : nat :=
  match datas with
  | [] => O
  | data :: rest =>
      match Periods data with
      | [] => populated rest
      | _ :: _ => S (populated rest)
      end
  end.

Definition tickClock (k : nat) (w : World) : World :=
  {| w_clock := (k + w_clock w)%nat; w_ops := w_ops w;
     w_cancelled := w_cancelled w |}.

(** A series with its period list replaced. *)
Definition withPeriods (data : MetricData) (ps : list Period) : MetricData :=
  {| md_MetricType := md_MetricType data;
     Periods := ps;
     SiteId := SiteId data;
     HostId := HostId data |}.

(** Two envelopes that differ at most in the [DownloadKbps], [UploadKbps],
    [Downtime], [Uptime] and [PacketLoss] of their periods: every other
    member is the same, series by series and period by period. *)
Definition wanAgree (x y : WANData) : Prop :=
  AvgLatency x = AvgLatency y /\ MaxLatency x = MaxLatency y /\
  ISPName x = ISPName y /\ ISPAsn x = ISPAsn y.

Definition periodAgree (p q : Period) : Prop :=
  wanAgree (WAN (Data p)) (WAN (Data q)) /\
  MetricTime p = MetricTime q /\ Version p = Version q.

Definition seriesAgree (d e : MetricData) : Prop :=
  md_MetricType d = md_MetricType e /\ SiteId d = SiteId e /\
  HostId d = HostId e /\ Forall2 periodAgree (Periods d) (Periods e).

Definition differOnlyInNonLatency (m n : ISPMetrics) : Prop :=
  Forall2 seriesAgree (im_Data m) (im_Data n).

(** The state after blocking operation [w_ops w] has been started, and
    what the signal goroutine logs while it is pending. *)
Definition afterAwait (env : Env) (w : World) : World :=
  {| w_clock := w_clock w; w_ops := S (w_ops w);
     w_cancelled := w_cancelled w || signal_during env (w_ops w) |}.

Definition awaitLog (env : Env) (w : World) : list Event :=
  if signal_during env (w_ops w) && negb (w_cancelled w)
  then [Log Info "Received shutdown signal" []] else [].

(** The request [PublishLatency] hands to the broker client for a record:
    none when the record cannot be encoded. *)
Definition publishRequest (env : Env) (baseTopic : string)
    (latencyMetric : LatencyMetric) : list Event :=
  match json_Marshal env latencyMetric with
  | Ok payload =>
      [MqttPublish (latencyTopic baseTopic (lm_SiteId latencyMetric))
         0 false payload]
  | Err _ => []
  end.

(** What shows that a record has had its publish attempt: the request
    handed to the broker client or, when the record cannot be encoded, the
    error log of the loop for the encoding failure (the only return of
    [PublishLatency] that comes before the broker client is reached). *)
Definition attemptOf (env : Env) (baseTopic : string)
    (latencyMetric : LatencyMetric) : Event :=
  match json_Marshal env latencyMetric with
  | Ok payload =>
      MqttPublish (latencyTopic baseTopic (lm_SiteId latencyMetric))
        0 false payload
  | Err e =>
      Log Error "Failed to publish latency metric"
        [("error", FStr ("failed to marshal latency metric: " +:+ e));
         ("siteId", FStr (lm_SiteId latencyMetric))]
  end.

Definition isAttempt (e : Event) : bool :=
  match e with
  | MqttPublish _ _ _ _ => true
  | Log Error msg ((_, FStr err) :: _) =>
      (msg =? "Failed to publish latency metric")%string
      && prefix "failed to marshal latency metric: " err
  | _ => false
  end.

(** The publish attempts of a run, in order. *)
Definition attempts (evs : list Event) : list Event := filter isAttempt evs.

(** A broker request that carries a [LatencyMetric] as a JSON object, at
    QoS 0 and not retained; any other event passes.  The payload is
    written out character by character: an opening brace, the eight
    members in the order of the struct, each as its quoted name, a colon
    and its encoded value, separated by commas, and a closing brace. *)
Definition latencyPublish (env : Env) (e : Event) : Prop :=
  match e with
  | MqttPublish _ qos retained payload =>
      qos = 0 /\ retained = false /\
      exists m publishedAt,
        json_time env (lm_PublishedAt m) = Ok publishedAt /\
        payload =
        ("{" +:+ dquote +:+ "siteId" +:+ dquote +:+ ":" +:+ json_string env (lm_SiteId m) +:+
         "," +:+ dquote +:+ "hostId" +:+ dquote +:+ ":" +:+ json_string env (lm_HostId m) +:+
         "," +:+ dquote +:+ "timestamp" +:+ dquote +:+ ":" +:+ json_string env (lm_Timestamp m) +:+
         "," +:+ dquote +:+ "avgLatency" +:+ dquote +:+ ":" +:+ itoa (lm_AvgLatency m) +:+
         "," +:+ dquote +:+ "maxLatency" +:+ dquote +:+ ":" +:+ itoa (lm_MaxLatency m) +:+
         "," +:+ dquote +:+ "ispName" +:+ dquote +:+ ":" +:+ json_string env (lm_ISPName m) +:+
         "," +:+ dquote +:+ "ispAsn" +:+ dquote +:+ ":" +:+ json_string env (lm_ISPAsn m) +:+
         "," +:+ dquote +:+ "publishedAt" +:+ dquote +:+ ":" +:+ publishedAt +:+
         "}")%string
  | _ => True
  end.

(** Every event a computation emits satisfies [P], from every state. *)
Definition emitsOnly {A} (P : Event -> Prop) (m : M A) : Prop :=
  forall w, Forall P (events (m w)).

(** What the fetch returns once the request could be built. *)
Definition fetchResult (env : Env) (reply : HttpReply) : Result ISPMetrics :=
  match reply with
  | NetErr e => Err ("failed to make request: " +:+ e)
  | Resp status body =>
      if negb (status =? 200)%Z then
        Err ("API request failed with status " +:+ itoa status
             +:+ ": " +:+ body)
      else
        match json_decode env body with
        | Err e => Err ("failed to decode response: " +:+ e)
        | Ok metrics => Ok metrics
        end
  end.

(** Whether the pass of the loop that starts in [w] takes the ticker case
    of the [select]. *)
Definition tickTaken (env : Env) (w : World) : bool :=
  negb (w_cancelled (afterAwait env w) && negb (select_tick env (w_ops w))).

(* ------------------------------------------------------------------ *)
(** ** A small deployment, for running the definitions *)

Definition wanSample (avg mx download : Z) : WANData :=
  {| AvgLatency := avg; DownloadKbps := download; Downtime := 0;
     ISPAsn := "7922"; ISPName := "Comcast"; MaxLatency := mx;
     PacketLoss := 0; UploadKbps := 40000; Uptime := 100 |}.

Definition periodAt (t : string) (wan : WANData) : Period :=
  {| Data := {| WAN := wan |}; MetricTime := t; Version := "1" |}.

Definition seriesOf (site host : string) (ps : list Period) : MetricData :=
  {| md_MetricType := "5m"; Periods := ps; SiteId := site; HostId := host |}.

Definition p_new : Period := periodAt "2024-01-01T00:05:00Z" (wanSample 12 30 900000).
Definition p_old : Period := periodAt "2024-01-01T00:00:00Z" (wanSample 50 99 800000).
Definition p_other : Period := periodAt "2024-01-01T00:05:00Z" (wanSample 7 9 100000).

Definition siteA : MetricData := seriesOf "site-a" "host-1" [p_new; p_old].
Definition siteB : MetricData := seriesOf "site-b" "host-2" [p_other].
Definition siteEmpty : MetricData := seriesOf "site-c" "host-3" [].
(** A second series that carries the site id of [siteA]. *)
Definition siteA' : MetricData := seriesOf "site-a" "host-9" [p_other].

Definition twoSites : ISPMetrics := {| im_Data := [siteA; siteB] |}.
Definition twins : ISPMetrics := {| im_Data := [siteA; siteA'] |}.

Definition w0 : World := {| w_clock := 0; w_ops := 0; w_cancelled := false |}.

(** An environment in which the API answers 200 with a body that decodes
    to [metrics], the broker accepts everything, no signal arrives, and
    the transport gives up on a request whose context is cancelled, as the
    transport of [net/http] does. *)
Definition demoEnv (metrics : ISPMetrics) : Env :=
  {| now_at := fun k => 1700000000 + Z.of_nat k;
     signal_during := fun _ => false;
     new_request := fun _ => None;
     http_do := fun _ cancelled =>
       if cancelled then NetErr "context canceled" else Resp 200 "{...}";
     json_decode := fun _ => Ok metrics;
     json_string := fun s => dquote +:+ s +:+ dquote;
     json_time := fun t => Ok (dquote +:+ itoa t +:+ dquote);
     broker_ack := fun _ => None;
     select_tick := fun _ => false |}.

Definition withSignal (s : nat -> bool) (env : Env) : Env :=
  {| now_at := now_at env; signal_during := s;
     new_request := new_request env; http_do := http_do env;
     json_decode := json_decode env; json_string := json_string env;
     json_time := json_time env; broker_ack := broker_ack env;
     select_tick := select_tick env |}.

Definition withBroker (b : nat -> error) (env : Env) : Env :=
  {| now_at := now_at env; signal_during := signal_during env;
     new_request := new_request env; http_do := http_do env;
     json_decode := json_decode env; json_string := json_string env;
     json_time := json_time env; broker_ack := b;
     select_tick := select_tick env |}.

Definition withHttp (h : nat -> bool -> HttpReply) (env : Env) : Env :=
  {| now_at := now_at env; signal_during := signal_during env;
     new_request := new_request env; http_do := h;
     json_decode := json_decode env; json_string := json_string env;
     json_time := json_time env; broker_ack := broker_ack env;
     select_tick := select_tick env |}.

(** The API answers 500 to every request. *)
Definition failingApi : Env :=
  withHttp (fun _ _ => Resp 500 "Internal Server Error") (demoEnv twoSites).

(** The broker rejects every publish. *)
Definition deadBroker : Env :=
  withBroker (fun _ => Some "not connected") (demoEnv twoSites).


(** [twoSites] with other throughput, downtime, uptime and packet-loss
    readings in every period. *)
Definition reshaped (p : Period) : Period :=
  {| Data := {| WAN :=
       {| AvgLatency := AvgLatency (WAN (Data p));
          DownloadKbps := 1; Downtime := 2;
          ISPAsn := ISPAsn (WAN (Data p));
          ISPName := ISPName (WAN (Data p));
          MaxLatency := MaxLatency (WAN (Data p));
          PacketLoss := 3; UploadKbps := 4; Uptime := 5 |} |};
     MetricTime := MetricTime p; Version := Version p |}.

Definition twoSitesReshaped : ISPMetrics :=
  {| im_Data := map (fun d => withPeriods d (map reshaped (Periods d)))
                  (im_Data twoSites) |}.

Definition demoApp : App :=
  {| cli := {| ApiKey := "key"; ApiURL := "https://api.ui.com/ea/isp-metrics";
               MetricType := "5m"; MqttBroker := "tcp://localhost:1883";
               MqttClientID := "ubipoller"; MqttTopic := "ubiquiti/isp-metrics";
               MqttUsername := EmptyString; MqttPassword := EmptyString;
               Interval := 300000000000; LogLevel := "info" |};
     ubiquitiClient := {| apiKey := "key";
                          baseURL := "https://api.ui.com/ea/isp-metrics" |};
     mqttPublisher := {| topic := "ubiquiti/isp-metrics" |} |}.

(* ------------------------------------------------------------------ *)
(** ** More readings of a run *)

Definition isHttp (e : Event) : bool :=
  match e with
  | HttpDo _ _ _ => true
  | _ => false
  end.

(** The requests handed to the HTTP client, in order. *)
Definition httpRequests (evs : list Event) : list Event := filter isHttp evs.

Definition isDisconnect (e : Event) : bool :=
  match e with
  | MqttDisconnect _ => true
  | _ => false
  end.

(** The disconnections asked of the broker client, in order. *)
Definition disconnects (evs : list Event) : list Event :=
  filter isDisconnect evs.

(** The log line of the signal goroutine of [main]. *)
Definition isSignalLog (e : Event) : bool :=
  match e with
  | Log Info msg [] => (msg =? "Received shutdown signal")%string
  | _ => false
  end.

Definition signalLogs (evs : list Event) : list Event :=
  filter isSignalLog evs.


(** What the [ctx.Done()] case of [Run] does (lines 195-198). *)
Definition shutdownEvents : list Event :=
  [Log Info "Shutting down application" [];
   Log Info "Disconnecting from MQTT broker" [];
   MqttDisconnect 250].

(** Whether a series has a period (the negation of the test of line 240). *)
Definition hasPeriod (data : MetricData) : bool :=
  negb (len (Periods data) =? 0)%Z.

(** A computation and the signal goroutine: the goroutine logs exactly
    when the computation takes the context from live to cancelled, and a
    cancelled context stays cancelled. *)
Definition Cancels {A} (m : M A) : Prop :=
  forall w,
    List.length (signalLogs (events (m w))) =
      Nat.b2n (negb (w_cancelled w) && w_cancelled (world (m w))) /\
    (w_cancelled w = true -> w_cancelled (world (m w)) = true).

(* ------------------------------------------------------------------ *)
(** ** Start-up: [NewMQTTPublisher], [NewApp] and [main] *)

(** The settings [NewMQTTPublisher] hands to the MQTT client: the
    arguments of its [AddBroker], [SetClientID], [SetUsername] and
    [SetPassword] calls.  The three handlers it installs only log and run
    inside the client; they are not part of this model. *)
Record ClientOptions := {
  Servers : list string;
  ClientID : string;
  Username : string;
  Password : string
}.

(** [mqtt.NewClientOptions()]: nothing set yet. *)
Definition NewClientOptions : ClientOptions :=
  {| Servers := []; ClientID := EmptyString;
     Username := EmptyString; Password := EmptyString |}.

Definition AddBroker (o : ClientOptions) (server : string) : ClientOptions :=
  {| Servers := Servers o ++ [server]; ClientID := ClientID o;
     Username := Username o; Password := Password o |}.

Definition SetClientID (o : ClientOptions) (id : string) : ClientOptions :=
  {| Servers := Servers o; ClientID := id;
     Username := Username o; Password := Password o |}.

Definition SetUsername (o : ClientOptions) (u : string) : ClientOptions :=
  {| Servers := Servers o; ClientID := ClientID o;
     Username := u; Password := Password o |}.

Definition SetPassword (o : ClientOptions) (p : string) : ClientOptions :=
  {| Servers := Servers o; ClientID := ClientID o;
     Username := Username o; Password := p |}.

(** The options built by lines 300-309. *)
Definition clientOptions (c : CLI) : ClientOptions :=
  let opts := NewClientOptions in
  let opts := AddBroker opts (MqttBroker c) in
  let opts := SetClientID opts (MqttClientID c) in
  let opts :=
    if negb (MqttUsername c =? EmptyString)%string
    then SetUsername opts (MqttUsername c) else opts in
  let opts :=
    if negb (MqttPassword c =? EmptyString)%string
    then SetPassword opts (MqttPassword c) else opts in
  opts.

(** [NewMQTTPublisher] (lines 299-336).  [connect] is the broker's answer
    to [client.Connect()] with the given options: the [token.Error()]
    after [token.Wait()]. *)
Definition NewMQTTPublisher (connect : ClientOptions -> error) (c : CLI)
  : Result MQTTPublisher :=
  match connect (clientOptions c) with
  | Some e => Err ("failed to connect to MQTT broker: " +:+ e)
  | None => Ok {| topic := MqttTopic c |}
  end.

(** [NewApp] (lines 148-171). *)
Definition NewApp (connect : ClientOptions -> error) (c : CLI) : Result App :=
  let client := {| apiKey := ApiKey c; baseURL := ApiURL c |} in
  match NewMQTTPublisher connect c with
  | Err e => Err ("failed to create MQTT publisher: " +:+ e)
  | Ok publisher =>
      Ok {| cli := c; ubiquitiClient := client; mqttPublisher := publisher |}
  end.

(** How [main] ends: by returning, or in a [logger.Fatal], which logs the
    message with the error and exits with status 1. *)
Inductive Ending :=
| Exit0
| Fatal (msg err : string).

(** [context.WithCancel(context.Background())] (line 129): the application
    context starts live. *)
Definition withLiveContext (w : World) : World :=
  {| w_clock := w_clock w; w_ops := w_ops w; w_cancelled := false |}.

Definition context_WithCancel : M unit :=
  fun w => (Done tt, withLiveContext w, []).

(** [main] (lines 107-145), for a command line already parsed into [c], and
    watched for [fuel] passes of the loop of [Run]; [None] when it is
    still running.  [parseLevel] is [logrus.ParseLevel].  The signal
    goroutine of lines 133-137 is [signalHandler], which runs inside the
    blocking operations. *)
Definition main (parseLevel : string -> error)
    (connect : ClientOptions -> error) (env : Env) (fuel : nat) (c : CLI)
  : M (option Ending) :=
  match parseLevel (LogLevel c) with
  | Some e => ret (Some (Fatal "Invalid log level" e))
  | None =>
      match NewApp connect c with
      | Err e => ret (Some (Fatal "Failed to create application" e))
      | Ok app =>
          context_WithCancel ;;
          r <- Run env fuel app ;;
          match r with
          | None => ret None
          | Some (Some e) => ret (Some (Fatal "Application failed" e))
          | Some None =>
              log Info "Application shutdown complete" [] ;;
              ret (Some Exit0)
          end
      end
  end.

(* ------------------------------------------------------------------ *)
(** ** The whole-envelope publish path *)

(** [Publish] (lines 339-356).  [marshal] is [json.Marshal] on an
    [ISPMetrics]. *)
Definition Publish (marshal : ISPMetrics -> Result string) (env : Env)
    (p : MQTTPublisher) (metrics : ISPMetrics) : M error :=
  match marshal metrics with
  | Err e => ret (Some ("failed to marshal metrics: " +:+ e))
  | Ok payload =>
      log Debug "Publishing metrics to MQTT"
        [("topic", FStr (topic p));
         ("payload_size", FInt (Z.of_nat (String.length payload)))] ;;
      emit (MqttPublish (topic p) 0 false payload) ;;
      n <- await env ;;
      match broker_ack env n with
      | Some e => ret (Some ("failed to publish to MQTT: " +:+ e))
      | None => ret None
      end
  end.

(** The cycle of the first revision of the program, which publishes the
    whole envelope with [Publish] (its [fetchAndPublishMetrics]; that
    revision's [MetricData] has no [siteId] and [hostId], which this
    function does not read). *)
Definition fetchAndPublishEnvelope (marshal : ISPMetrics -> Result string)
    (env : Env) (a : App) : M error :=
  log Debug "Fetching ISP metrics from Ubiquiti API" [] ;;
  r <- GetISPMetrics env (ubiquitiClient a) (MetricType (cli a)) ;;
  match r with
  | Err e => ret (Some ("failed to fetch ISP metrics: " +:+ e))
  | Ok metrics =>
      log Debug "Metrics fetched successfully"
        [("periods_count", FInt (len (im_Data metrics)))] ;;
      err <- Publish marshal env (mqttPublisher a) metrics ;;
      match err with
      | Some e => ret (Some ("failed to publish metrics to MQTT: " +:+ e))
      | None =>
          log Info "Metrics fetched and published successfully" [] ;;
          ret None
      end
  end.

(** The error log of [Run] for its first cycle (lines 187-189). *)
Definition initialErrorLog (o : Outcome error) : list Event :=
  match o with
  | Done (Some e) =>
      [Log Error "Initial metrics fetch failed" [("error", FStr e)]]
  | _ => []
  end.

(** The first two log lines of [Run] (lines 175-180). *)
Definition startupLogs (a : App) : list Event :=
  [Log Info "Starting ubipoller application" [];
   Log Info "Configuration loaded"
     [("interval", FInt (Interval (cli a)));
      ("metric_type", FStr (MetricType (cli a)));
      ("mqtt_topic", FStr (MqttTopic (cli a)))]].

(** The readings of the sample deployment for start-up and for the
    whole-envelope path: a broker that accepts the connection, one that
    refuses it, a level parser that knows four levels, and an envelope
    encoder that always succeeds. *)
Definition acceptingBroker : ClientOptions -> error := fun _ => None.

Definition refusingBroker : ClientOptions -> error :=
  fun _ => Some "connection refused".

Definition knownLevel (l : string) : error :=
  if ((l =? "debug") || (l =? "info") || (l =? "warn") || (l =? "error"))%string
  then None else Some ("not a valid logrus Level: " +:+ l).

Definition envelopeEncoder : ISPMetrics -> Result string :=
  fun m => Ok ("{data:" +:+ itoa (len (im_Data m)) +:+ "}").

(** The sample application with a zero interval. *)
Definition idleApp : App :=
  {| cli := {| ApiKey := ApiKey (cli demoApp); ApiURL := ApiURL (cli demoApp);
               MetricType := MetricType (cli demoApp);
               MqttBroker := MqttBroker (cli demoApp);
               MqttClientID := MqttClientID (cli demoApp);
               MqttTopic := MqttTopic (cli demoApp);
               MqttUsername := MqttUsername (cli demoApp);
               MqttPassword := MqttPassword (cli demoApp);
               Interval := 0; LogLevel := LogLevel (cli demoApp) |};
     ubiquitiClient := ubiquitiClient demoApp;
     mqttPublisher := mqttPublisher demoApp |}.

(** An environment in which the request cannot be built. *)
Definition badUrl : Env :=
  {| now_at := now_at (demoEnv twoSites);
     signal_during := signal_during (demoEnv twoSites);
     new_request := fun _ => Some "missing protocol scheme";
     http_do := http_do (demoEnv twoSites);
     json_decode := json_decode (demoEnv twoSites);
     json_string := json_string (demoEnv twoSites);
     json_time := json_time (demoEnv twoSites);
     broker_ack := broker_ack (demoEnv twoSites);
     select_tick := select_tick (demoEnv twoSites) |}.

(** An environment whose [select] takes the ticker case whenever it can. *)
Definition tickFirst (env : Env) : Env :=
  {| now_at := now_at env; signal_during := signal_during env;
     new_request := new_request env; http_do := http_do env;
     json_decode := json_decode env; json_string := json_string env;
     json_time := json_time env; broker_ack := broker_ack env;
     select_tick := fun _ => true |}.

(** A state in which the context is cancelled already. *)
Definition wCancelled : World :=
  {| w_clock := 0; w_ops := 0; w_cancelled := true |}.

(* ------------------------------------------------------------------ *)
(** ** The monad's equations *)

Lemma bind_done {A B} (m : M A) (k : A -> M B) w a w1 evs1 :
  m w = (Done a, w1, evs1) ->
  bind m k w = (outcome (k a w1), world (k a w1), evs1 ++ events (k a w1)).
Proof.
  intros Hm. unfold bind. rewrite Hm.
  destruct (k a w1) as [[o w2] evs2]. reflexivity.
Qed.

Lemma bind_panic {A B} (m : M A) (k : A -> M B) w msg w1 evs1 :
  m w = (Panic msg, w1, evs1) -> bind m k w = (Panic msg, w1, evs1).
Proof. intros Hm. unfold bind. rewrite Hm. reflexivity. Qed.

Lemma triple_eta {A} (r : Outcome A * World * list Event) :
  r = (outcome r, world r, events r).
Proof. destruct r as [[o w] evs]. reflexivity. Qed.

(** Run the next statement of a sequence whose behaviour is known. *)
Ltac go_step lem :=
  erewrite bind_done by (first [reflexivity | apply lem]).

Ltac go_simpl := unfold ret, emit, log; simpl.

Lemma tickClock_0 w : tickClock 0 w = w.
Proof. destruct w. reflexivity. Qed.

(* ------------------------------------------------------------------ *)
(** ** The extraction loop computes [latestFrom] *)

Lemma extractLoop_spec env datas : forall acc w,
  extractLoop env datas acc w =
  (Done (acc ++ latestFrom env (w_clock w) datas),
   tickClock (populated datas) w, []).
Proof.
  induction datas as [|data rest IH]; intros acc w; simpl.
  - unfold ret. rewrite app_nil_r, tickClock_0. reflexivity.
  - destruct (Periods data) as [|p ps] eqn:HP; simpl.
    + apply IH.
    + unfold len. simpl List.length.
      replace (Z.of_nat (S (List.length ps)) =? 0)%Z with false
        by (symmetry; apply Z.eqb_neq; lia).
      unfold index; simpl nth_error.
      erewrite bind_done by reflexivity.
      erewrite bind_done by reflexivity.
      rewrite IH. unfold outcome, world, events; simpl.
      rewrite <- app_assoc. simpl.
      unfold tickClock; simpl.
      rewrite Nat.add_succ_r. reflexivity.
Qed.

Lemma extract_spec env metrics w :
  extractLatestLatencyMetrics env metrics w =
  (Done (latestFrom env (w_clock w) (im_Data metrics)),
   tickClock (populated (im_Data metrics)) w, []).
Proof. unfold extractLatestLatencyMetrics. apply extractLoop_spec. Qed.

Lemma populated_app l1 l2 :
  populated (l1 ++ l2) = (populated l1 + populated l2)%nat.
Proof.
  induction l1 as [|d l1 IH]; simpl; [reflexivity|].
  destruct (Periods d); simpl; rewrite IH; reflexivity.
Qed.

Lemma latestFrom_app env l1 : forall k l2,
  latestFrom env k (l1 ++ l2) =
  latestFrom env k l1 ++ latestFrom env (k + populated l1) l2.
Proof.
  induction l1 as [|d l1 IH]; intros k l2; simpl.
  - rewrite Nat.add_0_r. reflexivity.
  - destruct (Periods d) as [|p ps]; simpl.
    + apply IH.
    + rewrite IH. simpl. rewrite Nat.add_succ_r. reflexivity.
Qed.

Lemma populated_full datas :
  (forall data, In data datas -> Periods data <> []) ->
  populated datas = List.length datas.
Proof.
  induction datas as [|d rest IH]; intros Hne; simpl; [reflexivity|].
  destruct (Periods d) eqn:HP.
  - exfalso. apply (Hne d); [left; reflexivity | exact HP].
  - rewrite IH; [reflexivity|]. intros x Hx. apply Hne. right. exact Hx.
Qed.

Lemma latestFrom_full env datas : forall k,
  (forall data, In data datas -> Periods data <> []) ->
  List.length (latestFrom env k datas) = List.length datas /\
  map lm_SiteId (latestFrom env k datas) = map SiteId datas /\
  forall i data, nth_error datas i = Some data ->
    exists p, nth_error (Periods data) 0 = Some p /\
      nth_error (latestFrom env k datas) i =
      Some (recordOf data p (now_at env (k + i))).
Proof.
  induction datas as [|d rest IH]; intros k Hne.
  - simpl. repeat split. intros [|i] data H; discriminate H.
  - assert (Hrest : forall data, In data rest -> Periods data <> [])
      by (intros x Hx; apply Hne; right; exact Hx).
    destruct (IH (S k) Hrest) as (Hlen & Hmap & Hnth).
    simpl. destruct (Periods d) as [|p ps] eqn:HP.
    + exfalso. apply (Hne d); [left; reflexivity | exact HP].
    + simpl. rewrite Hlen, Hmap. repeat split.
      intros [|i] data H; simpl in H.
      * injection H as <-. exists p. rewrite HP, Nat.add_0_r. split; reflexivity.
      * destruct (Hnth i data H) as (q & Hq & Hr).
        exists q. split; [exact Hq|]. simpl.
        rewrite Nat.add_succ_r. exact Hr.
Qed.

Lemma latestFrom_agree env l1 l2 :
  Forall2 seriesAgree l1 l2 ->
  populated l1 = populated l2 /\
  forall k, latestFrom env k l1 = latestFrom env k l2.
Proof.
  induction 1 as [|d e l1 l2 Hde _ [IHp IHl]]; [split; reflexivity|].
  destruct Hde as (_ & Hs & Hh & Hps). simpl.
  destruct Hps as [|p q ps qs Hpq _].
  - split; [exact IHp | exact IHl].
  - split; [rewrite IHp; reflexivity|]. intros k. rewrite IHl. f_equal.
    destruct Hpq as ((Ha & Hm & Hn & Has) & Ht & _).
    unfold recordOf. rewrite Hs, Hh, Ht, Ha, Hm, Hn, Has. reflexivity.
Qed.

(* ------------------------------------------------------------------ *)
(** ** The extractor *)

Example extract_twoSites :
  outcome (extractLatestLatencyMetrics (demoEnv twoSites) twoSites w0) =
  Done [recordOf siteA p_new 1700000000; recordOf siteB p_other 1700000001].
Proof. reflexivity. Qed.

(** C1: when every site series of the envelope has at least one period,
    [extractLatestLatencyMetrics] returns exactly one record per series, in
    the order of the series: the [i]-th record is built from the [i]-th
    series (and its period 0, and the [i]-th clock reading of the call).
    Nothing is assumed about the site ids, so two series with the same
    [siteId] give two records, each at its own position. *)
Theorem extract_one_record_per_series env metrics w :
  (forall data, In data (im_Data metrics) -> Periods data <> []) ->
  exists records,
    outcome (extractLatestLatencyMetrics env metrics w) = Done records /\
    List.length records = List.length (im_Data metrics) /\
    map lm_SiteId records = map SiteId (im_Data metrics) /\
    forall i data, nth_error (im_Data metrics) i = Some data ->
      exists p, nth_error (Periods data) 0 = Some p /\
        nth_error records i =
        Some (recordOf data p (now_at env (w_clock w + i))).
Proof.
  intros Hne. rewrite extract_spec. unfold outcome; simpl.
  exists (latestFrom env (w_clock w) (im_Data metrics)).
  split; [reflexivity|]. apply latestFrom_full. exact Hne.
Qed.

Lemma extract_one_record_per_series_witness :
  exists records,
    outcome (extractLatestLatencyMetrics (demoEnv twins) twins w0) = Done records /\
    List.length records = 2%nat /\
    map lm_SiteId records = ["site-a"; "site-a"] /\
    forall i data, nth_error [siteA; siteA'] i = Some data ->
      exists p, nth_error (Periods data) 0 = Some p /\
        nth_error records i =
        Some (recordOf data p (now_at (demoEnv twins) (0 + i))).
Proof.
  apply (@extract_one_record_per_series (demoEnv twins) twins w0).
  intros data [<-|[<-|[]]]; discriminate.
Defined.

(** C2: a series with a non-empty period list contributes one record,
    placed after the records of the series before it, whose [avgLatency],
    [maxLatency], [ispName], [ispAsn] and [timestamp] are those of the
    period at index 0 ([timestamp] being its [metricTime]); and the periods
    at the other indices are never read: replacing them by any others
    changes nothing in what the extraction returns. *)
Theorem extract_copies_period_0 env pre data post p ps w :
  Periods data = p :: ps ->
  exists before r after,
    outcome (extractLatestLatencyMetrics env {| im_Data := pre |} w) =
      Done before /\
    outcome (extractLatestLatencyMetrics env
               {| im_Data := pre ++ data :: post |} w) =
      Done (before ++ r :: after) /\
    lm_AvgLatency r = AvgLatency (WAN (Data p)) /\
    lm_MaxLatency r = MaxLatency (WAN (Data p)) /\
    lm_ISPName r = ISPName (WAN (Data p)) /\
    lm_ISPAsn r = ISPAsn (WAN (Data p)) /\
    lm_Timestamp r = MetricTime p /\
    lm_SiteId r = SiteId data /\ lm_HostId r = HostId data /\
    forall ps',
      extractLatestLatencyMetrics env
        {| im_Data := pre ++ withPeriods data (p :: ps') :: post |} w =
      extractLatestLatencyMetrics env
        {| im_Data := pre ++ data :: post |} w.
Proof.
  intros HP.
  exists (latestFrom env (w_clock w) pre),
         (recordOf data p (now_at env (w_clock w + populated pre))),
         (latestFrom env (S (w_clock w + populated pre)) post).
  rewrite !extract_spec. unfold outcome; simpl.
  split; [reflexivity|].
  split. { rewrite latestFrom_app. simpl. rewrite HP. reflexivity. }
  repeat (split; [reflexivity|]).
  intros ps'. rewrite !extract_spec. simpl.
  rewrite !latestFrom_app, !populated_app. simpl. rewrite HP. reflexivity.
Qed.

Lemma extract_copies_period_0_witness :
  exists before r after,
    outcome (extractLatestLatencyMetrics (demoEnv twoSites)
               {| im_Data := [siteB] |} w0) = Done before /\
    outcome (extractLatestLatencyMetrics (demoEnv twoSites)
               {| im_Data := [siteB] ++ siteA :: [siteEmpty] |} w0) =
      Done (before ++ r :: after) /\
    lm_AvgLatency r = 12 /\
    lm_MaxLatency r = 30 /\
    lm_ISPName r = "Comcast" /\
    lm_ISPAsn r = "7922" /\
    lm_Timestamp r = "2024-01-01T00:05:00Z" /\
    lm_SiteId r = "site-a" /\ lm_HostId r = "host-1" /\
    forall ps',
      extractLatestLatencyMetrics (demoEnv twoSites)
        {| im_Data := [siteB] ++ withPeriods siteA (p_new :: ps') :: [siteEmpty] |} w0 =
      extractLatestLatencyMetrics (demoEnv twoSites)
        {| im_Data := [siteB] ++ siteA :: [siteEmpty] |} w0.
Proof.
  apply (@extract_copies_period_0 (demoEnv twoSites) [siteB] siteA [siteEmpty]
           p_new [p_old] w0).
  reflexivity.
Defined.

(** C7: the extraction never faults, whatever the envelope: it returns a
    slice, having touched nothing but the clock (the index-0 access is
    reached only with a non-empty period list).  A series with an empty
    period list yields no record and no clock reading, and an envelope
    that contains such a series gives exactly the result of the envelope
    without it. *)
Theorem extract_skips_empty_series env w :
  (forall metrics, exists records,
     extractLatestLatencyMetrics env metrics w =
     (Done records, tickClock (populated (im_Data metrics)) w, [])) /\
  (forall data, Periods data = [] ->
     extractLatestLatencyMetrics env {| im_Data := [data] |} w =
     (Done [], w, [])) /\
  (forall pre data post, Periods data = [] ->
     extractLatestLatencyMetrics env {| im_Data := pre ++ data :: post |} w =
     extractLatestLatencyMetrics env {| im_Data := pre ++ post |} w).
Proof.
  split; [|split].
  - intros metrics. eexists. apply extract_spec.
  - intros data HP. rewrite extract_spec. simpl. rewrite HP.
    rewrite tickClock_0. reflexivity.
  - intros pre data post HP. rewrite !extract_spec. simpl.
    rewrite !latestFrom_app, !populated_app. simpl. rewrite HP. reflexivity.
Qed.

Lemma extract_skips_empty_series_witness :
  extractLatestLatencyMetrics (demoEnv twoSites)
    {| im_Data := [siteEmpty] |} w0 = (Done [], w0, []) /\
  extractLatestLatencyMetrics (demoEnv twoSites)
    {| im_Data := [siteA] ++ siteEmpty :: [siteB] |} w0 =
  extractLatestLatencyMetrics (demoEnv twoSites)
    {| im_Data := [siteA] ++ [siteB] |} w0.
Proof.
  destruct (extract_skips_empty_series (demoEnv twoSites) w0) as (_ & H1 & H2).
  split.
  - apply H1. reflexivity.
  - apply H2. reflexivity.
Defined.

(** C10: two envelopes that differ only in the [DownloadKbps],
    [UploadKbps], [Downtime], [Uptime] or [PacketLoss] of their periods
    give, from the same clock, the same records (and leave the same
    state). *)
Theorem extract_ignores_non_latency_fields env m n w :
  differOnlyInNonLatency m n ->
  extractLatestLatencyMetrics env m w = extractLatestLatencyMetrics env n w.
Proof.
  intros H. rewrite !extract_spec.
  destruct (latestFrom_agree env H) as [Hp Hl].
  rewrite Hp, Hl. reflexivity.
Qed.

Lemma extract_ignores_non_latency_fields_witness :
  differOnlyInNonLatency twoSites twoSitesReshaped /\
  twoSites <> twoSitesReshaped /\
  extractLatestLatencyMetrics (demoEnv twoSites) twoSites w0 =
  extractLatestLatencyMetrics (demoEnv twoSites) twoSitesReshaped w0.
Proof.
  assert (H : differOnlyInNonLatency twoSites twoSitesReshaped)
    by (repeat constructor).
  split; [exact H|]. split; [discriminate|].
  apply (@extract_ignores_non_latency_fields (demoEnv twoSites)
           twoSites twoSitesReshaped w0 H).
Defined.

(* ------------------------------------------------------------------ *)
(** ** Blocking operations and the publisher *)

Lemma await_spec env w :
  await env w = (Done (w_ops w), afterAwait env w, awaitLog env w).
Proof.
  unfold await, afterAwait, awaitLog.
  erewrite bind_done by reflexivity. simpl.
  destruct (signal_during env (w_ops w)); simpl.
  - unfold bind, signalHandler; simpl.
    destruct (w_cancelled w); simpl; reflexivity.
  - unfold bind, ret; simpl. rewrite orb_false_r. reflexivity.
Qed.

Lemma publishes_app evs1 evs2 :
  publishes (evs1 ++ evs2) = publishes evs1 ++ publishes evs2.
Proof. apply filter_app. Qed.

Lemma publishes_awaitLog env w : publishes (awaitLog env w) = [].
Proof.
  unfold awaitLog.
  destruct (signal_during env (w_ops w) && negb (w_cancelled w)); reflexivity.
Qed.

Lemma PublishLatency_spec env p m base w :
  PublishLatency env p m base w =
  match json_Marshal env m with
  | Err e => (Done (Some ("failed to marshal latency metric: " +:+ e)), w, [])
  | Ok payload =>
      (Done match broker_ack env (w_ops w) with
            | Some e => Some ("failed to publish latency to MQTT: " +:+ e)
            | None => None
            end,
       afterAwait env w,
       [Log Debug "Publishing latency metric to MQTT"
          [("topic", FStr (latencyTopic base (lm_SiteId m)));
           ("siteId", FStr (lm_SiteId m));
           ("avgLatency", FInt (lm_AvgLatency m));
           ("maxLatency", FInt (lm_MaxLatency m));
           ("payload_size", FInt (Z.of_nat (String.length payload)))];
        MqttPublish (latencyTopic base (lm_SiteId m)) 0 false payload]
       ++ awaitLog env w)
  end.
Proof.
  unfold PublishLatency.
  destruct (json_Marshal env m) as [payload|e]; [|reflexivity].
  unfold log. do 3 go_step await_spec.
  destruct (broker_ack env (w_ops w)); go_simpl; rewrite app_nil_r;
    reflexivity.
Qed.


Lemma publishOne_spec env a m w :
  outcome (publishOne env a m w) = Done tt /\
  publishes (events (publishOne env a m w)) =
    publishRequest env (MqttTopic (cli a)) m /\
  world (publishOne env a m w) =
    match json_Marshal env m with
    | Ok _ => afterAwait env w
    | Err _ => w
    end.
Proof.
  unfold publishOne, publishRequest, bind.
  rewrite PublishLatency_spec.
  destruct (json_Marshal env m) as [payload|e]; go_simpl.
  - destruct (broker_ack env (w_ops w)); go_simpl;
      rewrite !publishes_app, publishes_awaitLog; repeat split; reflexivity.
  - repeat split; reflexivity.
Qed.

Lemma forEach_cons {A} (x : A) xs body w :
  forEach (x :: xs) body w =
  match body x w with
  | (Done _, w1, evs1) =>
      (outcome (forEach xs body w1), world (forEach xs body w1),
       evs1 ++ events (forEach xs body w1))
  | (Panic msg, w1, evs1) => (Panic msg, w1, evs1)
  end.
Proof.
  simpl. unfold bind. destruct (body x w) as [[[u|msg] w1] evs1].
  - destruct (forEach xs body w1) as [[o w2] evs2]. reflexivity.
  - reflexivity.
Qed.

Lemma publishLoop_spec env a lms : forall w,
  outcome (forEach lms (publishOne env a) w) = Done tt /\
  publishes (events (forEach lms (publishOne env a) w)) =
    flat_map (publishRequest env (MqttTopic (cli a))) lms /\
  w_clock (world (forEach lms (publishOne env a) w)) = w_clock w.
Proof.
  induction lms as [|m rest IH]; intros w.
  - repeat split; reflexivity.
  - rewrite forEach_cons.
    destruct (publishOne_spec env a m w) as (Ho & Hp & Hw).
    destruct (publishOne env a m w) as [[o w1] evs1].
    simpl in Ho, Hp, Hw.
    subst o. destruct (IH w1) as (IHo & IHp & IHw).
    simpl. rewrite publishes_app, Hp, IHp, IHw.
    repeat split; [exact IHo|].
    subst w1. destruct (json_Marshal env m); reflexivity.
Qed.

(* ------------------------------------------------------------------ *)
(** ** The fetcher *)

Lemma GetISPMetrics_spec env c metricType w :
  GetISPMetrics env c metricType w =
  let url := baseURL c +:+ "/" +:+ metricType in
  match new_request env url with
  | Some e => (Done (Err ("failed to create request: " +:+ e)), w, [])
  | None =>
      (Done (fetchResult env
               (http_do env (w_ops w) (w_cancelled (afterAwait env w)))),
       afterAwait env w,
       [Log Debug "Making API request" [("url", FStr url)];
        HttpDo "GET" url
          [("X-API-KEY", apiKey c); ("Accept", "application/json")]]
       ++ awaitLog env w)
  end.
Proof.
  unfold GetISPMetrics. simpl.
  destruct (new_request env _) as [e|]; [reflexivity|].
  unfold log. do 4 go_step await_spec.
  unfold fetchResult, ctxCancelled. simpl.
  destruct (http_do env (w_ops w) _) as [e|status body];
    [go_simpl; rewrite app_nil_r; reflexivity|].
  destruct (negb (status =? 200)%Z);
    [go_simpl; rewrite app_nil_r; reflexivity|].
  destruct (json_decode env body); go_simpl; rewrite app_nil_r; reflexivity.
Qed.

Lemma GetISPMetrics_total env c metricType w :
  exists r,
    outcome (GetISPMetrics env c metricType w) = Done r /\
    publishes (events (GetISPMetrics env c metricType w)) = [] /\
    w_clock (world (GetISPMetrics env c metricType w)) = w_clock w.
Proof.
  rewrite GetISPMetrics_spec. simpl.
  destruct (new_request env _).
  - eexists. repeat split.
  - eexists. go_simpl. rewrite publishes_awaitLog. repeat split.
Qed.

(* ------------------------------------------------------------------ *)
(** ** One cycle *)

Lemma cycle_fetch_failed env a w e :
  outcome (GetISPMetrics env (ubiquitiClient a) (MetricType (cli a)) w) =
    Done (Err e) ->
  fetchAndPublishMetrics env a w =
  (Done (Some ("failed to fetch ISP metrics: " +:+ e)),
   world (GetISPMetrics env (ubiquitiClient a) (MetricType (cli a)) w),
   Log Debug "Fetching ISP metrics from Ubiquiti API" []
   :: events (GetISPMetrics env (ubiquitiClient a) (MetricType (cli a)) w)).
Proof.
  intros Hg. unfold fetchAndPublishMetrics, log.
  go_step await_spec.
  erewrite bind_done by (rewrite <- Hg; apply triple_eta).
  go_simpl. rewrite app_nil_r. reflexivity.
Qed.

Lemma cycle_fetch_ok env a w metrics :
  outcome (GetISPMetrics env (ubiquitiClient a) (MetricType (cli a)) w) =
    Done (Ok metrics) ->
  let g := GetISPMetrics env (ubiquitiClient a) (MetricType (cli a)) w in
  let records := latestFrom env (w_clock (world g)) (im_Data metrics) in
  let loop := forEach records (publishOne env a)
                (tickClock (populated (im_Data metrics)) (world g)) in
  fetchAndPublishMetrics env a w =
  (Done None, world loop,
   Log Debug "Fetching ISP metrics from Ubiquiti API" []
   :: events g
   ++ [Log Debug "Metrics fetched successfully"
         [("periods_count", FInt (len (im_Data metrics)))];
       Log Debug "Extracted latest latency metrics"
         [("sites_count", FInt (len records))]]
   ++ events loop
   ++ [Log Info "Latency metrics published successfully"
         [("sites_published", FInt (len records))]]).
Proof.
  intros Hg g records loop. unfold fetchAndPublishMetrics, log.
  go_step await_spec.
  erewrite bind_done by (rewrite <- Hg; apply triple_eta).
  cbv beta iota.
  go_step await_spec.
  go_step extract_spec.
  go_step await_spec.
  destruct (publishLoop_spec env a records
              (tickClock (populated (im_Data metrics)) (world g)))
    as (Ho & _ & _).
  erewrite bind_done by (rewrite <- Ho; apply triple_eta).
  go_step await_spec.
  go_simpl. reflexivity.
Qed.

(* ------------------------------------------------------------------ *)
(** ** Strings *)

Lemma length_append (a b : string) :
  String.length (a +:+ b) = (String.length a + String.length b)%nat.
Proof. induction a as [|c a IH]; simpl; [reflexivity | rewrite IH; reflexivity]. Qed.

Lemma append_assoc (a b c : string) : (a +:+ b) +:+ c = a +:+ (b +:+ c).
Proof. induction a as [|x a IH]; simpl; [reflexivity | rewrite IH; reflexivity]. Qed.

Lemma append_cancel_l (a x y : string) : a +:+ x = a +:+ y -> x = y.
Proof.
  induction a as [|c a IH]; simpl; intros H; [exact H|].
  injection H as H. apply IH. exact H.
Qed.

Lemma append_cancel_r (a : string) : forall x y : string,
  x +:+ a = y +:+ a -> x = y.
Proof.
  induction x as [|c x IH]; intros [|d y] H; simpl in H.
  - reflexivity.
  - exfalso. apply (f_equal String.length) in H. simpl in H.
    rewrite length_append in H. lia.
  - exfalso. apply (f_equal String.length) in H. simpl in H.
    rewrite length_append in H. lia.
  - injection H as -> H. f_equal. apply IH. exact H.
Qed.

(* ------------------------------------------------------------------ *)
(** ** The publisher's requests *)

Lemma publishedTopics_app evs1 evs2 :
  publishedTopics (evs1 ++ evs2) = publishedTopics evs1 ++ publishedTopics evs2.
Proof.
  induction evs1 as [|e evs1 IH]; simpl; [reflexivity|].
  destruct e; simpl; rewrite IH; reflexivity.
Qed.

Lemma publishedTopics_awaitLog env w : publishedTopics (awaitLog env w) = [].
Proof.
  unfold awaitLog.
  destruct (signal_during env (w_ops w) && negb (w_cancelled w)); reflexivity.
Qed.

Lemma PublishLatency_topics env p m base w :
  publishedTopics (events (PublishLatency env p m base w)) =
  match json_Marshal env m with
  | Ok _ => [latencyTopic base (lm_SiteId m)]
  | Err _ => []
  end.
Proof.
  rewrite PublishLatency_spec.
  destruct (json_Marshal env m); simpl; [|reflexivity].
  rewrite publishedTopics_awaitLog. reflexivity.
Qed.

Lemma PublishLatency_publishes env p m base w :
  publishes (events (PublishLatency env p m base w)) = publishRequest env base m.
Proof.
  rewrite PublishLatency_spec. unfold publishRequest.
  destruct (json_Marshal env m); simpl; [|reflexivity].
  change (filter isPublish (awaitLog env w)) with (publishes (awaitLog env w)).
  rewrite publishes_awaitLog. reflexivity.
Qed.

(** C6: every request [PublishLatency] hands to the broker client goes to
    the topic [baseTopic + "/" + record.siteId + "/latency"], and there is
    exactly one such request when the record can be encoded.  The topic
    depends on nothing but [baseTopic] and the record's [siteId]: another
    record with the same [siteId], in any state and environment, goes to
    the same topic.  With the site fixed, a different base gives a
    different topic that differs in its first segment only, and with the
    base fixed, a different site id gives a different topic that differs
    in its middle segment only. *)
Theorem publish_topic_is_base_site_latency env p m base w :
  (forall tpc,
     In tpc (publishedTopics (events (PublishLatency env p m base w))) ->
     tpc = base +:+ "/" +:+ lm_SiteId m +:+ "/latency") /\
  (forall payload, json_Marshal env m = Ok payload ->
     publishedTopics (events (PublishLatency env p m base w)) =
     [base +:+ "/" +:+ lm_SiteId m +:+ "/latency"]) /\
  (forall env' p' m' w' tpc,
     lm_SiteId m' = lm_SiteId m ->
     In tpc (publishedTopics (events (PublishLatency env' p' m' base w'))) ->
     tpc = base +:+ "/" +:+ lm_SiteId m +:+ "/latency") /\
  (forall base', latencyTopic base' (lm_SiteId m) = latencyTopic base (lm_SiteId m) ->
     base' = base) /\
  (forall site', latencyTopic base site' = latencyTopic base (lm_SiteId m) ->
     site' = lm_SiteId m).
Proof.
  split; [|split; [|split; [|split]]].
  - intros tpc. rewrite PublishLatency_topics.
    destruct (json_Marshal env m); simpl; [|tauto].
    intros [<-|[]]. reflexivity.
  - intros payload H. rewrite PublishLatency_topics, H. reflexivity.
  - intros env' p' m' w' tpc Hs. rewrite PublishLatency_topics.
    destruct (json_Marshal env' m'); simpl; [|tauto].
    intros [<-|[]]. rewrite Hs. reflexivity.
  - unfold latencyTopic. intros base' H.
    apply append_cancel_r in H. exact H.
  - unfold latencyTopic. intros site' H.
    apply append_cancel_l in H. simpl in H. injection H as H.
    apply append_cancel_r in H. exact H.
Qed.

Lemma publish_topic_is_base_site_latency_witness :
  publishedTopics
    (events (PublishLatency (demoEnv twoSites) (mqttPublisher demoApp)
               (recordOf siteA p_new 1700000000) "ubiquiti/isp-metrics" w0)) =
  ["ubiquiti/isp-metrics/site-a/latency"].
Proof.
  destruct (publish_topic_is_base_site_latency (demoEnv twoSites)
              (mqttPublisher demoApp) (recordOf siteA p_new 1700000000)
              "ubiquiti/isp-metrics" w0) as (_ & H & _).
  eapply H. reflexivity.
Defined.

Lemma attempts_app evs1 evs2 :
  attempts (evs1 ++ evs2) = attempts evs1 ++ attempts evs2.
Proof. apply filter_app. Qed.

Lemma attempts_awaitLog env w : attempts (awaitLog env w) = [].
Proof.
  unfold awaitLog.
  destruct (signal_during env (w_ops w) && negb (w_cancelled w)); reflexivity.
Qed.

Lemma publishOne_attempts env a m w :
  attempts (events (publishOne env a m w)) =
  [attemptOf env (MqttTopic (cli a)) m].
Proof.
  unfold publishOne, attemptOf, bind.
  rewrite PublishLatency_spec.
  destruct (json_Marshal env m) as [payload|e]; go_simpl.
  - destruct (broker_ack env (w_ops w)); go_simpl;
      change (filter isAttempt ?l) with (attempts l);
      rewrite !attempts_app, attempts_awaitLog; reflexivity.
  - destruct e; reflexivity.
Qed.

Lemma publishLoop_attempts env a lms : forall w,
  attempts (events (forEach lms (publishOne env a) w)) =
  map (attemptOf env (MqttTopic (cli a))) lms.
Proof.
  induction lms as [|m rest IH]; intros w; [reflexivity|].
  rewrite forEach_cons.
  assert (Ho := proj1 (publishOne_spec env a m w)).
  assert (Ha := publishOne_attempts env a m w).
  destruct (publishOne env a m w) as [[o w1] evs1]. simpl in Ho, Ha.
  subst o. simpl. rewrite attempts_app, Ha, IH. reflexivity.
Qed.

Lemma attempts_GetISPMetrics env c metricType w :
  attempts (events (GetISPMetrics env c metricType w)) = [].
Proof.
  rewrite GetISPMetrics_spec. cbv zeta.
  destruct (new_request env _); [reflexivity|]. simpl.
  change (filter isAttempt ?l) with (attempts l). apply attempts_awaitLog.
Qed.

Lemma cycle_attempts_ok env a w metrics :
  outcome (GetISPMetrics env (ubiquitiClient a) (MetricType (cli a)) w) =
    Done (Ok metrics) ->
  attempts (events (fetchAndPublishMetrics env a w)) =
  map (attemptOf env (MqttTopic (cli a)))
    (latestFrom env
       (w_clock (world (GetISPMetrics env (ubiquitiClient a)
                          (MetricType (cli a)) w)))
       (im_Data metrics)).
Proof.
  intros Hg. rewrite (cycle_fetch_ok env a w Hg). simpl.
  change (filter isAttempt ?l) with (attempts l).
  rewrite attempts_app, attempts_GetISPMetrics. simpl.
  change (filter isAttempt ?l) with (attempts l).
  rewrite attempts_app. simpl. rewrite app_nil_r.
  apply publishLoop_attempts.
Qed.

(** C4: the publish loop of a cycle finishes normally for every batch and
    every behaviour of the broker, and it makes exactly one publish
    attempt per record, in the order of the batch: the attempts it leaves
    in the run are those of its records, one each.  The requests it hands
    to the broker client are those of the records that can be encoded, in
    the same order; attempts and requests are the same whichever
    publishes the broker rejects; and when every record can be encoded,
    there is exactly one broker request per record, to that record's
    topic.  In a whole cycle whose fetch succeeded, the attempts are those
    of the extracted records, one each, in extraction order. *)
Theorem publish_loop_attempts_every_record env a latencyMetrics w :
  outcome (forEach latencyMetrics (publishOne env a) w) = Done tt /\
  attempts (events (forEach latencyMetrics (publishOne env a) w)) =
    map (attemptOf env (MqttTopic (cli a))) latencyMetrics /\
  publishes (events (forEach latencyMetrics (publishOne env a) w)) =
    flat_map (publishRequest env (MqttTopic (cli a))) latencyMetrics /\
  (forall b,
     attempts (events (forEach latencyMetrics
                         (publishOne (withBroker b env) a) w)) =
     attempts (events (forEach latencyMetrics (publishOne env a) w)) /\
     publishes (events (forEach latencyMetrics
                          (publishOne (withBroker b env) a) w)) =
     publishes (events (forEach latencyMetrics (publishOne env a) w))) /\
  ((forall m, In m latencyMetrics ->
      exists payload, json_Marshal env m = Ok payload) ->
   Forall2
     (fun m e => exists payload,
        e = MqttPublish (latencyTopic (MqttTopic (cli a)) (lm_SiteId m))
              0 false payload)
     latencyMetrics
     (publishes (events (forEach latencyMetrics (publishOne env a) w)))) /\
  (forall metrics,
     outcome (GetISPMetrics env (ubiquitiClient a) (MetricType (cli a)) w) =
       Done (Ok metrics) ->
     exists records,
       outcome (extractLatestLatencyMetrics env metrics
                  (world (GetISPMetrics env (ubiquitiClient a)
                            (MetricType (cli a)) w))) = Done records /\
       attempts (events (fetchAndPublishMetrics env a w)) =
       map (attemptOf env (MqttTopic (cli a))) records).
Proof.
  destruct (publishLoop_spec env a latencyMetrics w) as (Ho & Hp & _).
  split; [exact Ho|]. split; [apply publishLoop_attempts|].
  split; [exact Hp|]. split; [|split].
  3: { intros metrics Hg. eexists. rewrite extract_spec. simpl.
       split; [reflexivity|]. apply cycle_attempts_ok. exact Hg. }
  - intros b.
    destruct (publishLoop_spec (withBroker b env) a latencyMetrics w)
      as (_ & Hb & _).
    rewrite Hb, Hp, !publishLoop_attempts. split; reflexivity.
  - rewrite Hp. clear Ho Hp.
    induction latencyMetrics as [|m rest IH]; intros Henc; simpl.
    + constructor.
    + destruct (Henc m (or_introl eq_refl)) as [payload Hm].
      unfold publishRequest at 1. rewrite Hm. simpl. constructor.
      * exists payload. reflexivity.
      * apply IH. intros x Hx. apply Henc. right. exact Hx.
Qed.

Lemma publish_loop_attempts_every_record_witness :
  Forall2
    (fun m e => exists payload,
       e = MqttPublish (latencyTopic "ubiquiti/isp-metrics" (lm_SiteId m))
             0 false payload)
    [recordOf siteA p_new 1700000000; recordOf siteB p_other 1700000001]
    (publishes
       (events
          (forEach
             [recordOf siteA p_new 1700000000; recordOf siteB p_other 1700000001]
             (publishOne deadBroker demoApp) w0))).
Proof.
  apply (publish_loop_attempts_every_record deadBroker demoApp
           [recordOf siteA p_new 1700000000; recordOf siteB p_other 1700000001]
           w0).
  intros m [<-|[<-|[]]]; eexists; reflexivity.
Defined.

(* ------------------------------------------------------------------ *)
(** ** What a whole run can emit *)

Lemma emitsOnly_ret {A} P (a : A) : emitsOnly P (ret a).
Proof. intros w. constructor. Qed.

Lemma emitsOnly_panic {A} P msg : emitsOnly P (@panic A msg).
Proof. intros w. constructor. Qed.

Lemma emitsOnly_emit (P : Event -> Prop) e : P e -> emitsOnly P (emit e).
Proof. intros H w. simpl. constructor; [exact H | constructor]. Qed.

Lemma emitsOnly_bind {A B} P (m : M A) (k : A -> M B) :
  emitsOnly P m -> (forall a, emitsOnly P (k a)) -> emitsOnly P (bind m k).
Proof.
  intros Hm Hk w. unfold bind. specialize (Hm w).
  destruct (m w) as [[[a|msg] w1] evs1]; simpl in Hm.
  - specialize (Hk a w1). destruct (k a w1) as [[o w2] evs2]. simpl in *.
    apply Forall_app. split; assumption.
  - exact Hm.
Qed.

Lemma emitsOnly_forEach {A} P (xs : list A) body :
  (forall x, emitsOnly P (body x)) -> emitsOnly P (forEach xs body).
Proof.
  intros Hb. induction xs as [|x xs IH]; simpl.
  - apply emitsOnly_ret.
  - apply emitsOnly_bind; [apply Hb | intros _; exact IH].
Qed.

Lemma emitsOnly_await env P :
  (forall lvl msg fields, P (Log lvl msg fields)) -> emitsOnly P (await env).
Proof.
  intros HP w. rewrite await_spec. simpl. unfold awaitLog.
  destruct (signal_during env (w_ops w) && negb (w_cancelled w));
    repeat constructor. apply HP.
Qed.

(** The text [json_Marshal] produces, written out. *)
Lemma json_Marshal_text env m :
  json_Marshal env m =
  match json_time env (lm_PublishedAt m) with
  | Err e =>
      Err ("json: error calling MarshalJSON for type time.Time: " +:+ e)
  | Ok publishedAt =>
      Ok ("{" +:+ dquote +:+ "siteId" +:+ dquote +:+ ":" +:+ json_string env (lm_SiteId m) +:+
          "," +:+ dquote +:+ "hostId" +:+ dquote +:+ ":" +:+ json_string env (lm_HostId m) +:+
          "," +:+ dquote +:+ "timestamp" +:+ dquote +:+ ":" +:+ json_string env (lm_Timestamp m) +:+
          "," +:+ dquote +:+ "avgLatency" +:+ dquote +:+ ":" +:+ itoa (lm_AvgLatency m) +:+
          "," +:+ dquote +:+ "maxLatency" +:+ dquote +:+ ":" +:+ itoa (lm_MaxLatency m) +:+
          "," +:+ dquote +:+ "ispName" +:+ dquote +:+ ":" +:+ json_string env (lm_ISPName m) +:+
          "," +:+ dquote +:+ "ispAsn" +:+ dquote +:+ ":" +:+ json_string env (lm_ISPAsn m) +:+
          "," +:+ dquote +:+ "publishedAt" +:+ dquote +:+ ":" +:+ publishedAt +:+
          "}")
  end.
Proof.
  unfold json_Marshal, json_object, json_member.
  destruct (json_time env (lm_PublishedAt m)) as [publishedAt|e];
    [|reflexivity].
  f_equal. cbn [map String.concat fst snd].
  repeat (rewrite !append_assoc; cbn [String.append]).
  reflexivity.
Qed.

Lemma latencyPublish_PublishLatency env p m base :
  emitsOnly (latencyPublish env) (PublishLatency env p m base).
Proof.
  intros w. rewrite PublishLatency_spec, json_Marshal_text.
  destruct (json_time env (lm_PublishedAt m)) as [publishedAt|e] eqn:Ht;
    cbn [events snd]; [|constructor].
  constructor; [exact I|]. constructor.
  - cbn [latencyPublish]. repeat split. exists m, publishedAt.
    split; [exact Ht | reflexivity].
  - unfold awaitLog.
    destruct (signal_during env (w_ops w) && negb (w_cancelled w));
      repeat constructor.
Qed.

Lemma latencyPublish_GetISPMetrics env c metricType :
  emitsOnly (latencyPublish env) (GetISPMetrics env c metricType).
Proof.
  intros w. rewrite GetISPMetrics_spec. simpl.
  destruct (new_request env _); simpl; [constructor|].
  constructor; [exact I|]. constructor; [exact I|].
  unfold awaitLog.
  destruct (signal_during env (w_ops w) && negb (w_cancelled w));
    repeat constructor.
Qed.

Lemma latencyPublish_extract env metrics :
  emitsOnly (latencyPublish env) (extractLatestLatencyMetrics env metrics).
Proof. intros w. rewrite extract_spec. constructor. Qed.

Ltac emits_only :=
  repeat first
    [ apply emitsOnly_ret
    | apply emitsOnly_panic
    | apply emitsOnly_emit; exact I
    | apply emitsOnly_await; intros; exact I
    | apply latencyPublish_PublishLatency
    | apply latencyPublish_GetISPMetrics
    | apply latencyPublish_extract
    | apply emitsOnly_forEach; intros
    | apply emitsOnly_bind; [|intros]
    | match goal with
      | |- emitsOnly _ (match ?x with _ => _ end) => destruct x
      end ].

Lemma latencyPublish_cycle env a :
  emitsOnly (latencyPublish env) (fetchAndPublishMetrics env a).
Proof. unfold fetchAndPublishMetrics, publishOne, log. emits_only. Qed.

Lemma latencyPublish_runSelect env a :
  emitsOnly (latencyPublish env) (runSelect env a).
Proof.
  unfold runSelect, Disconnect, log.
  apply emitsOnly_bind; [emits_only|]. intros n.
  apply emitsOnly_bind; [intros w; constructor|]. intros c.
  destruct (c && negb (select_tick env n)).
  - emits_only.
  - apply emitsOnly_bind; [apply latencyPublish_cycle|]. intros err.
    emits_only.
Qed.

Lemma latencyPublish_runLoop env a fuel :
  emitsOnly (latencyPublish env) (runLoop env fuel a).
Proof.
  induction fuel as [|fuel IH]; simpl.
  - apply emitsOnly_ret.
  - apply emitsOnly_bind; [apply latencyPublish_runSelect|].
    intros [e|]; [apply emitsOnly_ret | exact IH].
Qed.

(** C8: a per-site publish hands the broker client exactly one request
    when the record's [publishedAt] can be encoded, and none otherwise;
    the request has QoS 0, is not retained, and its payload is the JSON
    object of the record: an opening brace, the members [siteId],
    [hostId], [timestamp], [avgLatency], [maxLatency], [ispName], [ispAsn]
    and [publishedAt] in this order, each as its quoted name, a colon and
    its encoded value, separated by commas, and a closing brace.  Every
    request that a cycle, and a run of [Run] of any length, hands to the
    broker client is of this form, for some record. *)
Theorem publish_is_json_qos0_not_retained env :
  (forall p m base w,
     publishes (events (PublishLatency env p m base w)) =
     match json_time env (lm_PublishedAt m) with
     | Ok publishedAt =>
         [MqttPublish (latencyTopic base (lm_SiteId m)) 0 false
            ("{" +:+ dquote +:+ "siteId" +:+ dquote +:+ ":" +:+ json_string env (lm_SiteId m) +:+
             "," +:+ dquote +:+ "hostId" +:+ dquote +:+ ":" +:+ json_string env (lm_HostId m) +:+
             "," +:+ dquote +:+ "timestamp" +:+ dquote +:+ ":" +:+ json_string env (lm_Timestamp m) +:+
             "," +:+ dquote +:+ "avgLatency" +:+ dquote +:+ ":" +:+ itoa (lm_AvgLatency m) +:+
             "," +:+ dquote +:+ "maxLatency" +:+ dquote +:+ ":" +:+ itoa (lm_MaxLatency m) +:+
             "," +:+ dquote +:+ "ispName" +:+ dquote +:+ ":" +:+ json_string env (lm_ISPName m) +:+
             "," +:+ dquote +:+ "ispAsn" +:+ dquote +:+ ":" +:+ json_string env (lm_ISPAsn m) +:+
             "," +:+ dquote +:+ "publishedAt" +:+ dquote +:+ ":" +:+ publishedAt +:+
             "}")]
     | Err _ => []
     end) /\
  (forall a, emitsOnly (latencyPublish env) (fetchAndPublishMetrics env a)) /\
  (forall fuel a, emitsOnly (latencyPublish env) (Run env fuel a)).
Proof.
  split; [|split].
  - intros p m base w. rewrite PublishLatency_publishes.
    unfold publishRequest. rewrite json_Marshal_text.
    destruct (json_time env (lm_PublishedAt m)); reflexivity.
  - intros a. apply latencyPublish_cycle.
  - intros fuel a. unfold Run, log.
    apply emitsOnly_bind; [emits_only|]. intros _.
    apply emitsOnly_bind; [emits_only|]. intros _.
    apply emitsOnly_bind; [emits_only|]. intros _.
    apply emitsOnly_bind; [apply latencyPublish_cycle|]. intros err.
    apply emitsOnly_bind; [emits_only|]. intros _.
    apply emitsOnly_bind; [apply latencyPublish_runLoop|]. intros r.
    emits_only.
Qed.

(** The first record of the sample deployment, as it reaches the broker
    client: 167 bytes of JSON. *)
Lemma publish_is_json_qos0_not_retained_witness :
  publishes
    (events (PublishLatency (demoEnv twoSites) (mqttPublisher demoApp)
               (recordOf siteA p_new 1700000000) "ubiquiti/isp-metrics" w0)) =
  [MqttPublish "ubiquiti/isp-metrics/site-a/latency" 0 false
     ("{" +:+ dquote +:+ "siteId" +:+ dquote +:+ ":"
       +:+ dquote +:+ "site-a" +:+ dquote +:+ ","
       +:+ dquote +:+ "hostId" +:+ dquote +:+ ":"
       +:+ dquote +:+ "host-1" +:+ dquote +:+ ","
       +:+ dquote +:+ "timestamp" +:+ dquote +:+ ":"
       +:+ dquote +:+ "2024-01-01T00:05:00Z" +:+ dquote +:+ ","
       +:+ dquote +:+ "avgLatency" +:+ dquote +:+ ":12,"
       +:+ dquote +:+ "maxLatency" +:+ dquote +:+ ":30,"
       +:+ dquote +:+ "ispName" +:+ dquote +:+ ":"
       +:+ dquote +:+ "Comcast" +:+ dquote +:+ ","
       +:+ dquote +:+ "ispAsn" +:+ dquote +:+ ":"
       +:+ dquote +:+ "7922" +:+ dquote +:+ ","
       +:+ dquote +:+ "publishedAt" +:+ dquote +:+ ":"
       +:+ dquote +:+ "1700000000" +:+ dquote +:+ "}")].
Proof.
  rewrite (proj1 (publish_is_json_qos0_not_retained (demoEnv twoSites))).
  reflexivity.
Defined.

(* ------------------------------------------------------------------ *)
(** ** One pass of the scheduler's loop *)

Lemma cycle_total env a w :
  exists err, outcome (fetchAndPublishMetrics env a w) = Done err.
Proof.
  destruct (GetISPMetrics_total env (ubiquitiClient a) (MetricType (cli a)) w)
    as ([metrics|e] & Hg & _).
  - exists None. rewrite (cycle_fetch_ok env a w Hg). reflexivity.
  - eexists. rewrite (cycle_fetch_failed env a w Hg). reflexivity.
Qed.

Lemma bind_ctxCancelled {B} (k : bool -> M B) w :
  bind ctxCancelled k w = k (w_cancelled w) w.
Proof.
  unfold bind, ctxCancelled.
  destruct (k (w_cancelled w) w) as [[o w2] evs2]. reflexivity.
Qed.

Lemma runSelect_done env a w :
  tickTaken env w = false ->
  runSelect env a w =
  (Done (Some None), afterAwait env w,
   awaitLog env w ++
   [Log Info "Shutting down application" [];
    Log Info "Disconnecting from MQTT broker" [];
    MqttDisconnect 250]).
Proof.
  unfold tickTaken. intros Ht. apply negb_false_iff in Ht.
  unfold runSelect. go_step await_spec.
  rewrite bind_ctxCancelled, Ht.
  unfold Disconnect, log. go_simpl. reflexivity.
Qed.

Lemma runSelect_tick env a w :
  tickTaken env w = true ->
  runSelect env a w =
  (Done None,
   world (fetchAndPublishMetrics env a (afterAwait env w)),
   awaitLog env w ++
   events (fetchAndPublishMetrics env a (afterAwait env w)) ++
   match outcome (fetchAndPublishMetrics env a (afterAwait env w)) with
   | Done (Some e) =>
       [Log Error "Failed to fetch and publish metrics" [("error", FStr e)]]
   | _ => []
   end).
Proof.
  unfold tickTaken. intros Ht. apply negb_true_iff in Ht.
  unfold runSelect. go_step await_spec.
  rewrite bind_ctxCancelled, Ht.
  destruct (cycle_total env a (afterAwait env w)) as [err Herr].
  erewrite bind_done by (rewrite <- Herr; apply triple_eta).
  rewrite Herr. destruct err as [e|]; go_simpl; reflexivity.
Qed.

Lemma runLoop_continues env a fuel w :
  outcome (runSelect env a w) = Done None ->
  runLoop env (S fuel) a w =
  (outcome (runLoop env fuel a (world (runSelect env a w))),
   world (runLoop env fuel a (world (runSelect env a w))),
   events (runSelect env a w) ++
   events (runLoop env fuel a (world (runSelect env a w)))).
Proof.
  intros H. simpl.
  erewrite bind_done by (rewrite <- H; apply triple_eta). reflexivity.
Qed.

(** C5: when the fetch of a cycle fails, whatever the cause, the cycle
    returns an error that wraps the fetch error, hands nothing to the
    broker client and does not read the clock (so it extracts nothing);
    and the pass of the scheduler's loop that ran this cycle on a tick
    logs the error, having published nothing, does not return, and the
    loop goes on with its next pass. *)
Theorem fetch_failure_publishes_nothing env a w e :
  outcome (GetISPMetrics env (ubiquitiClient a) (MetricType (cli a)) w) =
    Done (Err e) ->
  outcome (fetchAndPublishMetrics env a w) =
    Done (Some ("failed to fetch ISP metrics: " +:+ e)) /\
  publishes (events (fetchAndPublishMetrics env a w)) = [] /\
  w_clock (world (fetchAndPublishMetrics env a w)) = w_clock w /\
  forall w', afterAwait env w' = w -> tickTaken env w' = true ->
    outcome (runSelect env a w') = Done None /\
    publishes (events (runSelect env a w')) = [] /\
    last (events (runSelect env a w')) TickerStop =
      Log Error "Failed to fetch and publish metrics"
        [("error", FStr ("failed to fetch ISP metrics: " +:+ e))] /\
    forall fuel,
      runLoop env (S fuel) a w' =
      (outcome (runLoop env fuel a (world (runSelect env a w'))),
       world (runLoop env fuel a (world (runSelect env a w'))),
       events (runSelect env a w') ++
       events (runLoop env fuel a (world (runSelect env a w')))).
Proof.
  intros Hg.
  destruct (GetISPMetrics_total env (ubiquitiClient a) (MetricType (cli a)) w)
    as (r & _ & Hpub & Hclock).
  assert (Hc := cycle_fetch_failed env a w Hg).
  assert (Hcp : publishes (events (fetchAndPublishMetrics env a w)) = []).
  { rewrite Hc. simpl. exact Hpub. }
  rewrite Hc at 1 3. simpl.
  split; [reflexivity|]. split; [exact Hcp|]. split; [exact Hclock|].
  intros w' Hw' Ht.
  assert (Hs := runSelect_tick env a w' Ht). rewrite Hw' in Hs.
  assert (Ho : outcome (runSelect env a w') = Done None)
    by (rewrite Hs; reflexivity).
  split; [exact Ho|]. split; [|split].
  - rewrite Hs. simpl. rewrite !publishes_app, publishes_awaitLog, Hcp.
    rewrite Hc. reflexivity.
  - rewrite Hs. simpl. rewrite Hc at 2. simpl.
    rewrite app_assoc. apply last_last.
  - intros fuel. apply runLoop_continues. exact Ho.
Qed.

Lemma fetch_failure_publishes_nothing_witness :
  outcome (fetchAndPublishMetrics failingApi demoApp w0) =
    Done (Some ("failed to fetch ISP metrics: " +:+
                "API request failed with status 500: Internal Server Error")) /\
  publishes (events (fetchAndPublishMetrics failingApi demoApp w0)) = [] /\
  w_clock (world (fetchAndPublishMetrics failingApi demoApp w0)) = 0%nat.
Proof.
  destruct (@fetch_failure_publishes_nothing failingApi demoApp w0
              "API request failed with status 500: Internal Server Error")
    as (H1 & H2 & H3 & _).
  - reflexivity.
  - split; [exact H1|]. split; [exact H2 | exact H3].
Defined.

(** The three ways a request that could be built makes the fetch fail. *)
Lemma fetch_failure_causes env c metricType w :
  new_request env (baseURL c +:+ "/" +:+ metricType) = None ->
  let reply := http_do env (w_ops w) (w_cancelled (afterAwait env w)) in
  (forall e, reply = NetErr e ->
     outcome (GetISPMetrics env c metricType w) =
     Done (Err ("failed to make request: " +:+ e))) /\
  (forall status body, reply = Resp status body -> status <> 200 ->
     outcome (GetISPMetrics env c metricType w) =
     Done (Err ("API request failed with status " +:+ itoa status
                +:+ ": " +:+ body))) /\
  (forall body e, reply = Resp 200 body -> json_decode env body = Err e ->
     outcome (GetISPMetrics env c metricType w) =
     Done (Err ("failed to decode response: " +:+ e))).
Proof.
  intros Hreq reply. subst reply. rewrite GetISPMetrics_spec. cbv zeta.
  rewrite Hreq. simpl. repeat split.
  - intros e ->. reflexivity.
  - intros status body -> Hs. simpl.
    apply Z.eqb_neq in Hs. rewrite Hs. reflexivity.
  - intros body e -> Hd. simpl. rewrite Hd. reflexivity.
Qed.

Lemma last_of_cycle (x y z f d : Event) l1 l2 :
  last (x :: l1 ++ y :: z :: l2 ++ [f]) d = f.
Proof.
  replace (x :: l1 ++ y :: z :: l2 ++ [f])
    with ((x :: l1 ++ y :: z :: l2) ++ [f])
    by (simpl; rewrite <- app_assoc; reflexivity).
  apply last_last.
Qed.

Lemma cycle_publishes_ok env a w metrics :
  outcome (GetISPMetrics env (ubiquitiClient a) (MetricType (cli a)) w) =
    Done (Ok metrics) ->
  publishes (events (fetchAndPublishMetrics env a w)) =
  flat_map (publishRequest env (MqttTopic (cli a)))
    (latestFrom env
       (w_clock (world (GetISPMetrics env (ubiquitiClient a)
                          (MetricType (cli a)) w)))
       (im_Data metrics)).
Proof.
  intros Hg.
  destruct (GetISPMetrics_total env (ubiquitiClient a) (MetricType (cli a)) w)
    as (r & _ & Hpub & _).
  rewrite (cycle_fetch_ok env a w Hg). simpl.
  change (filter isPublish ?l) with (publishes l).
  rewrite !publishes_app, Hpub. simpl.
  change (filter isPublish ?l) with (publishes l).
  rewrite publishes_app. simpl. rewrite app_nil_r.
  apply publishLoop_spec.
Qed.

(** C9: when the fetch of a cycle succeeds, the cycle returns [nil],
    whatever the broker answers to the publishes (the theorem holds for
    every environment, also one whose broker rejects everything).  Its
    last act is to log "Latency metrics published successfully" with, as
    [sites_published], the number of records extracted from the fetched
    envelope; and the pass of the scheduler's loop that ran the cycle adds
    no error log of its own. *)
Theorem cycle_reports_success_after_fetch env a w metrics :
  outcome (GetISPMetrics env (ubiquitiClient a) (MetricType (cli a)) w) =
    Done (Ok metrics) ->
  exists records,
    outcome (extractLatestLatencyMetrics env metrics
               (world (GetISPMetrics env (ubiquitiClient a)
                         (MetricType (cli a)) w))) = Done records /\
    outcome (fetchAndPublishMetrics env a w) = Done None /\
    last (events (fetchAndPublishMetrics env a w)) TickerStop =
      Log Info "Latency metrics published successfully"
        [("sites_published", FInt (len records))] /\
    publishes (events (fetchAndPublishMetrics env a w)) =
      flat_map (publishRequest env (MqttTopic (cli a))) records /\
    forall w', afterAwait env w' = w -> tickTaken env w' = true ->
      runSelect env a w' =
      (Done None, world (fetchAndPublishMetrics env a w),
       awaitLog env w' ++ events (fetchAndPublishMetrics env a w)).
Proof.
  intros Hg.
  destruct (GetISPMetrics_total env (ubiquitiClient a) (MetricType (cli a)) w)
    as (r & _ & Hpub & _).
  assert (Hc := cycle_fetch_ok env a w Hg). cbv zeta in Hc.
  eexists. rewrite extract_spec. simpl.
  split; [reflexivity|].
  split; [rewrite Hc; reflexivity|].
  split; [|split].
  - rewrite Hc. simpl events. apply last_of_cycle.
  - apply cycle_publishes_ok. exact Hg.
  - intros w' Hw' Ht. rewrite (runSelect_tick env a w' Ht), Hw'.
    rewrite Hc at 3. simpl. rewrite app_nil_r. reflexivity.
Qed.

Lemma cycle_reports_success_after_fetch_witness :
  outcome (fetchAndPublishMetrics deadBroker demoApp w0) = Done None /\
  last (events (fetchAndPublishMetrics deadBroker demoApp w0)) TickerStop =
    Log Info "Latency metrics published successfully"
      [("sites_published", FInt 2)] /\
  List.length (publishes (events (fetchAndPublishMetrics deadBroker demoApp w0)))
    = 2%nat.
Proof.
  destruct (@cycle_reports_success_after_fetch deadBroker demoApp w0 twoSites)
    as (records & Hr & Ho & Hl & Hp & _).
  - reflexivity.
  - injection Hr as <-. split; [exact Ho|]. split; [exact Hl|].
    rewrite Hp. reflexivity.
Defined.

(* ------------------------------------------------------------------ *)
(** ** Shutdown requests during a cycle *)













(* ------------------------------------------------------------------ *)
(** ** The scenarios of the specification, run on the sample deployment *)

(** Two sites with one usable period each: two messages, one per topic. *)
Example scenario_two_sites :
  publishedTopics (events (fetchAndPublishMetrics (demoEnv twoSites) demoApp w0)) =
  ["ubiquiti/isp-metrics/site-a/latency"; "ubiquiti/isp-metrics/site-b/latency"].
Proof. reflexivity. Qed.

(** One site without periods: nothing is published and the cycle reports
    success with zero sites. *)
Example scenario_empty_site :
  outcome (fetchAndPublishMetrics (demoEnv {| im_Data := [siteEmpty] |})
             demoApp w0) = Done None /\
  publishes (events (fetchAndPublishMetrics
                       (demoEnv {| im_Data := [siteEmpty] |}) demoApp w0)) = [] /\
  last (events (fetchAndPublishMetrics
                  (demoEnv {| im_Data := [siteEmpty] |}) demoApp w0)) TickerStop =
  Log Info "Latency metrics published successfully" [("sites_published", FInt 0)].
Proof. repeat split; reflexivity. Qed.

(** The API answers 500: [Run] publishes nothing, however long it is
    watched, and is still running. *)
Example scenario_http_500 :
  outcome (Run failingApi 3 demoApp w0) = Done None /\
  publishes (events (Run failingApi 3 demoApp w0)) = [].
Proof. split; reflexivity. Qed.

(** The signal arrives during the wait after the first cycle (blocking
    operations 0 to 2 are the fetch and the two publishes): no further
    cycle runs, the broker is disconnected once and [Run] returns [nil]. *)
Example scenario_shutdown_between_ticks :
  outcome (Run (withSignal (Nat.eqb 3) (demoEnv twoSites)) 5 demoApp w0) =
    Done (Some None) /\
  List.length (publishes (events (Run (withSignal (Nat.eqb 3) (demoEnv twoSites))
                                    5 demoApp w0))) = 2%nat /\
  filter (fun e => match e with MqttDisconnect _ => true | _ => false end)
    (events (Run (withSignal (Nat.eqb 3) (demoEnv twoSites)) 5 demoApp w0)) =
  [MqttDisconnect 250].
Proof. repeat split; reflexivity. Qed.

(* ------------------------------------------------------------------ *)
(** ** More on the extractor *)

Lemma latestFrom_length env datas : forall k,
  List.length (latestFrom env k datas) = populated datas.
Proof.
  induction datas as [|d rest IH]; intros k; simpl; [reflexivity|].
  destruct (Periods d); simpl; rewrite IH; reflexivity.
Qed.

Lemma populated_le datas : (populated datas <= List.length datas)%nat.
Proof.
  induction datas as [|d rest IH]; simpl; [lia|].
  destruct (Periods d); lia.
Qed.

Lemma hasPeriod_cons data p ps : Periods data = p :: ps -> hasPeriod data = true.
Proof.
  intros H. unfold hasPeriod, len. rewrite H. simpl List.length.
  apply negb_true_iff, Z.eqb_neq. lia.
Qed.

Lemma latestFrom_ids env datas : forall k,
  map lm_SiteId (latestFrom env k datas) = map SiteId (filter hasPeriod datas) /\
  map lm_HostId (latestFrom env k datas) = map HostId (filter hasPeriod datas).
Proof.
  induction datas as [|d rest IH]; intros k; simpl; [split; reflexivity|].
  destruct (Periods d) as [|p ps] eqn:HP.
  - assert (Hf : hasPeriod d = false)
      by (unfold hasPeriod; rewrite HP; reflexivity).
    rewrite Hf. apply IH.
  - rewrite (hasPeriod_cons d HP). simpl.
    destruct (IH (S k)) as [Hs Hh]. rewrite Hs, Hh. split; reflexivity.
Qed.

Lemma latestFrom_stamps env datas : forall k,
  map lm_PublishedAt (latestFrom env k datas) =
  map (now_at env) (seq k (populated datas)).
Proof.
  induction datas as [|d rest IH]; intros k; simpl; [reflexivity|].
  destruct (Periods d); simpl; rewrite IH; reflexivity.
Qed.

(** X1: for every envelope, whatever mix of empty and non-empty series it
    has, the extraction returns the records of the series that have a
    period, in their order: the site ids and host ids of the records are
    those of the envelope with the empty series filtered out, so there are
    never more records than series. *)
Theorem extract_keeps_populated_series env metrics w :
  exists records,
    outcome (extractLatestLatencyMetrics env metrics w) = Done records /\
    map lm_SiteId records = map SiteId (filter hasPeriod (im_Data metrics)) /\
    map lm_HostId records = map HostId (filter hasPeriod (im_Data metrics)) /\
    (List.length records <= List.length (im_Data metrics))%nat.
Proof.
  rewrite extract_spec. eexists. split; [reflexivity|].
  destruct (latestFrom_ids env (im_Data metrics) (w_clock w)) as [Hs Hh].
  split; [exact Hs|]. split; [exact Hh|].
  rewrite latestFrom_length. apply populated_le.
Qed.

(** X2: the extraction reads the clock once per record it returns and not
    otherwise: the [publishedAt] values of the records are the successive
    readings of the clock, starting with the first reading not yet taken
    when the extraction starts, and the clock has advanced by the number
    of records when it ends.  (The [timestamp] of a record plays no part
    in its [publishedAt].) *)
Theorem extract_stamps_successive_readings env metrics w :
  exists records,
    outcome (extractLatestLatencyMetrics env metrics w) = Done records /\
    map lm_PublishedAt records =
      map (now_at env) (seq (w_clock w) (List.length records)) /\
    w_clock (world (extractLatestLatencyMetrics env metrics w)) =
      (w_clock w + List.length records)%nat /\
    w_ops (world (extractLatestLatencyMetrics env metrics w)) = w_ops w /\
    w_cancelled (world (extractLatestLatencyMetrics env metrics w)) =
      w_cancelled w.
Proof.
  rewrite extract_spec. eexists. split; [reflexivity|]. simpl.
  rewrite latestFrom_length. split; [apply latestFrom_stamps|].
  repeat split. apply Nat.add_comm.
Qed.

(** X3: extraction distributes over the concatenation of envelopes: the
    records of [l1 ++ l2] are the records of [l1] followed by the records
    of [l2] extracted in the state the extraction of [l1] leaves. *)
Theorem extract_app env l1 l2 w :
  exists records1 records2,
    outcome (extractLatestLatencyMetrics env {| im_Data := l1 |} w) =
      Done records1 /\
    outcome (extractLatestLatencyMetrics env {| im_Data := l2 |}
               (world (extractLatestLatencyMetrics env {| im_Data := l1 |} w))) =
      Done records2 /\
    extractLatestLatencyMetrics env {| im_Data := l1 ++ l2 |} w =
    (Done (records1 ++ records2),
     world (extractLatestLatencyMetrics env {| im_Data := l2 |}
              (world (extractLatestLatencyMetrics env {| im_Data := l1 |} w))),
     []).
Proof.
  rewrite !extract_spec. simpl. do 2 eexists.
  split; [reflexivity|]. split; [reflexivity|].
  rewrite latestFrom_app, populated_app. unfold tickClock; simpl.
  rewrite (Nat.add_comm (populated l1) (w_clock w)).
  replace (populated l1 + populated l2 + w_clock w)%nat
    with (populated l2 + (w_clock w + populated l1))%nat by lia.
  reflexivity.
Qed.

(* ------------------------------------------------------------------ *)
(** ** What the program can emit, for any property of events *)

Lemma emitsOnly_ctxCancelled P : emitsOnly P ctxCancelled.
Proof. intros w. constructor. Qed.

Lemma emitsOnly_extract P env metrics :
  emitsOnly P (extractLatestLatencyMetrics env metrics).
Proof. intros w. rewrite extract_spec. constructor. Qed.

Lemma Forall_filter_nil (f : Event -> bool) evs :
  Forall (fun e => f e = false) evs -> filter f evs = [].
Proof.
  induction 1 as [|e evs He _ IH]; simpl; [reflexivity|].
  rewrite He. exact IH.
Qed.

Section Emits.

Variable P : Event -> Prop.
Variable env : Env.

Hypothesis P_log : forall lvl msg fields,
  isSignalLog (Log lvl msg fields) = false -> P (Log lvl msg fields).
Hypothesis P_await : emitsOnly P (await env).

Ltac emits :=
  repeat first
    [ apply emitsOnly_ret
    | apply emitsOnly_panic
    | apply emitsOnly_ctxCancelled
    | apply emitsOnly_extract
    | apply P_await
    | apply emitsOnly_emit; solve [apply P_log; reflexivity | auto]
    | apply emitsOnly_forEach; intros
    | apply emitsOnly_bind; [|intros]
    | match goal with
      | |- emitsOnly _ (match ?x with _ => _ end) => destruct x
      end ].

Section Cycle.

Hypothesis P_http : forall method url headers, P (HttpDo method url headers).
Hypothesis P_publish : forall tpc qos retained payload,
  P (MqttPublish tpc qos retained payload).

Lemma GetISPMetrics_emits c metricType :
  emitsOnly P (GetISPMetrics env c metricType).
Proof. unfold GetISPMetrics, log. emits. Qed.

Lemma PublishLatency_emits p m base :
  emitsOnly P (PublishLatency env p m base).
Proof. unfold PublishLatency, log. emits. Qed.

Lemma publishLoop_emits a lms : emitsOnly P (forEach lms (publishOne env a)).
Proof.
  apply emitsOnly_forEach. intros m. unfold publishOne, log.
  apply emitsOnly_bind; [apply PublishLatency_emits|]. intros [e|]; emits.
Qed.

Lemma cycle_emits a : emitsOnly P (fetchAndPublishMetrics env a).
Proof.
  unfold fetchAndPublishMetrics, log.
  apply emitsOnly_bind; [emits|]. intros _.
  apply emitsOnly_bind; [apply GetISPMetrics_emits|]. intros [metrics|e];
    [|emits].
  apply emitsOnly_bind; [emits|]. intros _.
  apply emitsOnly_bind; [emits|]. intros records.
  apply emitsOnly_bind; [emits|]. intros _.
  apply emitsOnly_bind; [apply publishLoop_emits|intros; emits].
Qed.

Hypothesis P_disconnect : forall quiesce, P (MqttDisconnect quiesce).

Lemma runSelect_emits a : emitsOnly P (runSelect env a).
Proof.
  unfold runSelect, Disconnect, log.
  apply emitsOnly_bind; [emits|]. intros n.
  apply emitsOnly_bind; [emits|]. intros c.
  destruct (c && negb (select_tick env n)).
  - emits.
  - apply emitsOnly_bind; [apply cycle_emits|]. intros err. emits.
Qed.

Lemma runLoop_emits a fuel : emitsOnly P (runLoop env fuel a).
Proof.
  induction fuel as [|fuel IH]; simpl.
  - apply emitsOnly_ret.
  - apply emitsOnly_bind; [apply runSelect_emits|].
    intros [e|]; [apply emitsOnly_ret | exact IH].
Qed.

End Cycle.

End Emits.

(* ------------------------------------------------------------------ *)
(** ** More on the fetcher and the cycle *)

Lemma httpRequests_app evs1 evs2 :
  httpRequests (evs1 ++ evs2) = httpRequests evs1 ++ httpRequests evs2.
Proof. apply filter_app. Qed.

Lemma httpRequests_awaitLog env w : httpRequests (awaitLog env w) = [].
Proof.
  unfold awaitLog.
  destruct (signal_during env (w_ops w) && negb (w_cancelled w)); reflexivity.
Qed.

Lemma GetISPMetrics_requests env c metricType w :
  httpRequests (events (GetISPMetrics env c metricType w)) =
    match new_request env (baseURL c +:+ "/" +:+ metricType) with
    | Some _ => []
    | None =>
        [HttpDo "GET" (baseURL c +:+ "/" +:+ metricType)
           [("X-API-KEY", apiKey c); ("Accept", "application/json")]]
    end.
Proof.
  rewrite GetISPMetrics_spec. cbv zeta.
  destruct (new_request env _); [reflexivity|]. simpl.
  change (filter isHttp ?l) with (httpRequests l).
  rewrite httpRequests_awaitLog. reflexivity.
Qed.

(** X4: the fetch succeeds in one case only: the request could be built,
    the transport answered with status 200, and the body decodes; the
    envelope returned is then the decoded body. *)
Theorem fetch_succeeds_iff env c metricType w metrics :
  outcome (GetISPMetrics env c metricType w) = Done (Ok metrics) <->
  new_request env (baseURL c +:+ "/" +:+ metricType) = None /\
  exists body,
    http_do env (w_ops w) (w_cancelled (afterAwait env w)) = Resp 200 body /\
    json_decode env body = Ok metrics.
Proof.
  rewrite GetISPMetrics_spec. cbv zeta.
  destruct (new_request env _) as [e|]; simpl.
  - split; [discriminate | intros [H _]; discriminate H].
  - unfold fetchResult.
    destruct (http_do env (w_ops w) _) as [e|status body]; simpl.
    + split; [discriminate | intros (_ & body & H & _); discriminate H].
    + destruct (status =? 200)%Z eqn:Hs; simpl.
      * apply Z.eqb_eq in Hs. subst status.
        destruct (json_decode env body) as [m|e] eqn:Hd.
        -- split.
           ++ intros H. injection H as <-. split; [reflexivity|].
              exists body. split; [reflexivity | exact Hd].
           ++ intros (_ & body' & Hb & Hd'). injection Hb as <-.
              rewrite Hd in Hd'. injection Hd' as <-. reflexivity.
        -- split; [discriminate|].
           intros (_ & body' & Hb & Hd'). injection Hb as <-.
           rewrite Hd in Hd'. discriminate Hd'.
      * apply Z.eqb_neq in Hs.
        split; [discriminate|].
        intros (_ & body' & Hb & _). injection Hb as -> _. contradiction.
Qed.

Lemma fetch_succeeds_iff_witness :
  outcome (GetISPMetrics (demoEnv twoSites) (ubiquitiClient demoApp)
             (MetricType (cli demoApp)) w0) = Done (Ok twoSites).
Proof.
  apply (proj2 (fetch_succeeds_iff (demoEnv twoSites) (ubiquitiClient demoApp)
                  (MetricType (cli demoApp)) w0 twoSites)).
  split; [reflexivity|]. eexists. split; reflexivity.
Defined.

(** X5: a fetch hands the HTTP client one GET request, for the URL
    [baseURL + "/" + metricType], with the client's API key in [X-API-KEY]
    and [Accept: application/json]; when the request cannot be built it
    hands it nothing, returns the wrapped error and leaves the state as it
    was.  In no case does a fetch publish, disconnect or read the
    clock. *)
Theorem fetch_makes_one_request env c metricType w :
  httpRequests (events (GetISPMetrics env c metricType w)) =
    match new_request env (baseURL c +:+ "/" +:+ metricType) with
    | Some _ => []
    | None =>
        [HttpDo "GET" (baseURL c +:+ "/" +:+ metricType)
           [("X-API-KEY", apiKey c); ("Accept", "application/json")]]
    end /\
  (forall e, new_request env (baseURL c +:+ "/" +:+ metricType) = Some e ->
     GetISPMetrics env c metricType w =
     (Done (Err ("failed to create request: " +:+ e)), w, [])) /\
  publishes (events (GetISPMetrics env c metricType w)) = [] /\
  disconnects (events (GetISPMetrics env c metricType w)) = [] /\
  w_clock (world (GetISPMetrics env c metricType w)) = w_clock w.
Proof.
  destruct (GetISPMetrics_total env c metricType w) as (r & _ & Hp & Hc).
  split; [|split; [|split; [exact Hp | split; [|exact Hc]]]].
  - apply GetISPMetrics_requests.
  - intros e He. rewrite GetISPMetrics_spec. cbv zeta. rewrite He.
    reflexivity.
  - apply Forall_filter_nil.
    apply (@GetISPMetrics_emits (fun e => isDisconnect e = false) env);
      try reflexivity.
    apply emitsOnly_await. reflexivity.
Qed.

(** X6: a cycle makes the HTTP requests of its fetch and no other (so at
    most one), all of them before its first broker request, and it never
    disconnects the broker client. *)
Theorem cycle_fetches_once_before_publishing env a w :
  httpRequests (events (fetchAndPublishMetrics env a w)) =
    httpRequests (events (GetISPMetrics env (ubiquitiClient a)
                            (MetricType (cli a)) w)) /\
  (List.length (httpRequests (events (fetchAndPublishMetrics env a w))) <= 1)%nat /\
  disconnects (events (fetchAndPublishMetrics env a w)) = [] /\
  exists pre post,
    events (fetchAndPublishMetrics env a w) = pre ++ post /\
    publishes pre = [] /\ httpRequests post = [].
Proof.
  assert (Hloop : forall lms w', httpRequests
            (events (forEach lms (publishOne env a) w')) = []).
  { intros lms w'. apply Forall_filter_nil.
    apply (@publishLoop_emits (fun e => isHttp e = false) env);
      try reflexivity.
    apply emitsOnly_await. reflexivity. }
  assert (Hdisc : disconnects (events (fetchAndPublishMetrics env a w)) = []).
  { apply Forall_filter_nil.
    apply (@cycle_emits (fun e => isDisconnect e = false) env);
      try reflexivity.
    apply emitsOnly_await. reflexivity. }
  assert (Hone : (List.length (httpRequests
            (events (GetISPMetrics env (ubiquitiClient a)
                       (MetricType (cli a)) w))) <= 1)%nat).
  { rewrite GetISPMetrics_requests.
    destruct (new_request env _); simpl; lia. }
  destruct (GetISPMetrics_total env (ubiquitiClient a) (MetricType (cli a)) w)
    as ([metrics|e] & Hg & Hp & _).
  - assert (Hc := cycle_fetch_ok env a w Hg). cbv zeta in Hc.
    assert (Hh : httpRequests (events (fetchAndPublishMetrics env a w)) =
                 httpRequests (events (GetISPMetrics env (ubiquitiClient a)
                                         (MetricType (cli a)) w))).
    { rewrite Hc. simpl. change (filter isHttp ?l) with (httpRequests l).
      rewrite httpRequests_app. simpl.
      change (filter isHttp ?l) with (httpRequests l).
      rewrite httpRequests_app, Hloop. simpl. rewrite app_nil_r. reflexivity. }
    split; [exact Hh|]. split; [rewrite Hh; exact Hone|].
    split; [exact Hdisc|].
    eexists (_ :: events (GetISPMetrics env _ _ w)), _.
    split; [rewrite Hc; simpl; reflexivity|]. split.
    + simpl. exact Hp.
    + simpl. change (filter isHttp ?l) with (httpRequests l).
      rewrite httpRequests_app, Hloop. reflexivity.
  - assert (Hc := cycle_fetch_failed env a w Hg).
    assert (Hh : httpRequests (events (fetchAndPublishMetrics env a w)) =
                 httpRequests (events (GetISPMetrics env (ubiquitiClient a)
                                         (MetricType (cli a)) w))).
    { rewrite Hc. reflexivity. }
    split; [exact Hh|]. split; [rewrite Hh; exact Hone|].
    split; [exact Hdisc|].
    exists (events (fetchAndPublishMetrics env a w)), [].
    rewrite app_nil_r. split; [reflexivity|]. split; [|reflexivity].
    rewrite Hc. simpl. exact Hp.
Qed.

(* ------------------------------------------------------------------ *)
(** ** The signal goroutine and the context *)

Lemma signalLogs_app evs1 evs2 :
  signalLogs (evs1 ++ evs2) = signalLogs evs1 ++ signalLogs evs2.
Proof. apply filter_app. Qed.

Lemma Cancels_ret {A} (a : A) : Cancels (ret a).
Proof. intros w. simpl. destruct (w_cancelled w); split; auto. Qed.

Lemma Cancels_panic {A} msg : Cancels (@panic A msg).
Proof. intros w. simpl. destruct (w_cancelled w); split; auto. Qed.

Lemma Cancels_emit e : isSignalLog e = false -> Cancels (emit e).
Proof.
  intros He w. unfold signalLogs. simpl. rewrite He.
  destruct (w_cancelled w); split; auto.
Qed.

Lemma Cancels_ctxCancelled : Cancels ctxCancelled.
Proof. intros w. simpl. destruct (w_cancelled w); split; auto. Qed.

Lemma Cancels_await env : Cancels (await env).
Proof.
  intros w. rewrite await_spec. unfold awaitLog. simpl.
  destruct (w_cancelled w), (signal_during env (w_ops w)); split; auto.
Qed.

Lemma Cancels_extract env metrics :
  Cancels (extractLatestLatencyMetrics env metrics).
Proof.
  intros w. rewrite extract_spec. simpl.
  destruct (w_cancelled w); split; auto.
Qed.

Lemma Cancels_bind {A B} (m : M A) (k : A -> M B) :
  Cancels m -> (forall a, Cancels (k a)) -> Cancels (bind m k).
Proof.
  intros Hm Hk w. unfold bind. specialize (Hm w).
  destruct (m w) as [[[a|msg] w1] evs1]; simpl in Hm; [|exact Hm].
  specialize (Hk a w1). destruct (k a w1) as [[o w2] evs2]. simpl in *.
  rewrite signalLogs_app, length_app.
  destruct Hm as [Hm1 Hm2], Hk as [Hk1 Hk2]. rewrite Hm1, Hk1.
  destruct (w_cancelled w), (w_cancelled w1), (w_cancelled w2);
    simpl in *; split; auto;
    try (specialize (Hm2 eq_refl); discriminate);
    try (specialize (Hk2 eq_refl); discriminate).
Qed.

Lemma Cancels_forEach {A} (xs : list A) body :
  (forall x, Cancels (body x)) -> Cancels (forEach xs body).
Proof.
  intros Hb. induction xs as [|x xs IH]; simpl.
  - apply Cancels_ret.
  - apply Cancels_bind; [apply Hb | intros _; exact IH].
Qed.

Ltac cancels :=
  repeat first
    [ apply Cancels_ret
    | apply Cancels_panic
    | apply Cancels_ctxCancelled
    | apply Cancels_await
    | apply Cancels_extract
    | apply Cancels_emit; reflexivity
    | apply Cancels_forEach; intros
    | apply Cancels_bind; [|intros]
    | match goal with
      | |- Cancels (match ?x with _ => _ end) => destruct x
      end ].

Lemma Cancels_cycle env a : Cancels (fetchAndPublishMetrics env a).
Proof.
  unfold fetchAndPublishMetrics, GetISPMetrics, publishOne, PublishLatency, log.
  cancels.
Qed.

Lemma Cancels_runSelect env a : Cancels (runSelect env a).
Proof.
  unfold runSelect, Disconnect, log.
  apply Cancels_bind; [cancels|]. intros n.
  apply Cancels_bind; [cancels|]. intros c.
  destruct (c && negb (select_tick env n)); [cancels|].
  apply Cancels_bind; [apply Cancels_cycle|]. intros err. cancels.
Qed.

Lemma Cancels_runLoop env a fuel : Cancels (runLoop env fuel a).
Proof.
  induction fuel as [|fuel IH]; simpl; [apply Cancels_ret|].
  apply Cancels_bind; [apply Cancels_runSelect|].
  intros [e|]; [apply Cancels_ret | exact IH].
Qed.

Lemma Cancels_Run env a fuel : Cancels (Run env fuel a).
Proof.
  unfold Run, log.
  apply Cancels_bind; [cancels|]. intros _.
  apply Cancels_bind; [cancels|]. intros _.
  apply Cancels_bind; [cancels|]. intros _.
  apply Cancels_bind; [apply Cancels_cycle|]. intros err.
  apply Cancels_bind; [cancels|]. intros _.
  apply Cancels_bind; [apply Cancels_runLoop|]. intros r. cancels.
Qed.

(** X7: in a run of [Run] of any length, from any state, the signal
    goroutine logs and cancels at most once: it logs exactly when the run
    takes the context from live to cancelled, never when the context was
    cancelled already; and a context that is cancelled is still cancelled
    when the run ends or is left. *)
Theorem shutdown_signal_handled_once env fuel a w :
  (List.length (signalLogs (events (Run env fuel a w))) <= 1)%nat /\
  (signalLogs (events (Run env fuel a w)) <> [] <->
   w_cancelled w = false /\ w_cancelled (world (Run env fuel a w)) = true) /\
  (w_cancelled w = true -> w_cancelled (world (Run env fuel a w)) = true).
Proof.
  destruct (Cancels_Run env a fuel w) as [Hlen Hmono].
  split; [|split; [|exact Hmono]].
  - rewrite Hlen. destruct (negb _ && _); simpl; lia.
  - destruct (signalLogs (events (Run env fuel a w))) as [|e l];
      simpl in Hlen;
      destruct (w_cancelled w), (w_cancelled (world (Run env fuel a w)));
      simpl in Hlen; try discriminate Hlen;
      (split; [intros H; try (exfalso; apply H; reflexivity); auto
              | intros [H1 H2]; try discriminate; auto]).
Qed.

(* ------------------------------------------------------------------ *)
(** ** The shape of a run of [Run] *)

Lemma disconnects_app evs1 evs2 :
  disconnects (evs1 ++ evs2) = disconnects evs1 ++ disconnects evs2.
Proof. apply filter_app. Qed.

Lemma disconnects_awaitLog env w : disconnects (awaitLog env w) = [].
Proof.
  unfold awaitLog.
  destruct (signal_during env (w_ops w) && negb (w_cancelled w)); reflexivity.
Qed.

Lemma disconnects_cycle env a w :
  disconnects (events (fetchAndPublishMetrics env a w)) = [].
Proof.
  apply Forall_filter_nil.
  apply (@cycle_emits (fun e => isDisconnect e = false) env);
    try reflexivity.
  apply emitsOnly_await. reflexivity.
Qed.

Lemma bind_outcome {A B} (m : M A) (k : A -> M B) w a :
  outcome (m w) = Done a ->
  bind m k w =
  (outcome (k a (world (m w))), world (k a (world (m w))),
   events (m w) ++ events (k a (world (m w)))).
Proof. intros H. apply bind_done. rewrite <- H. apply triple_eta. Qed.

Lemma runLoop_stops env a fuel w r w1 evs :
  runSelect env a w = (Done (Some r), w1, evs) ->
  runLoop env (S fuel) a w = (Done (Some r), w1, evs).
Proof.
  intros H. simpl. unfold bind. rewrite H. simpl. rewrite app_nil_r.
  reflexivity.
Qed.

Lemma runLoop_shape env a fuel : forall w,
  (outcome (runLoop env fuel a w) = Done None /\
   disconnects (events (runLoop env fuel a w)) = []) \/
  (outcome (runLoop env fuel a w) = Done (Some None) /\
   w_cancelled (world (runLoop env fuel a w)) = true /\
   exists pre,
     events (runLoop env fuel a w) = pre ++ shutdownEvents /\
     disconnects pre = []).
Proof.
  induction fuel as [|fuel IH]; intros w.
  - left. split; reflexivity.
  - destruct (tickTaken env w) eqn:Ht.
    + assert (Hs := runSelect_tick env a w Ht).
      assert (Ho : outcome (runSelect env a w) = Done None)
        by (rewrite Hs; reflexivity).
      rewrite (runLoop_continues env a fuel w Ho). simpl.
      assert (Hd : disconnects (events (runSelect env a w)) = []).
      { rewrite Hs. simpl. rewrite !disconnects_app, disconnects_awaitLog,
          disconnects_cycle. simpl.
        destruct (outcome (fetchAndPublishMetrics env a (afterAwait env w)))
          as [[e|]|msg]; reflexivity. }
      destruct (IH (world (runSelect env a w)))
        as [[Hout Hdl] | (Hout & Hc & pre & Hev & Hpre)].
      * left. split; [exact Hout|].
        rewrite disconnects_app, Hd, Hdl. reflexivity.
      * right. split; [exact Hout|]. split; [exact Hc|].
        exists (events (runSelect env a w) ++ pre). split.
        -- rewrite Hev. apply app_assoc.
        -- rewrite disconnects_app, Hd, Hpre. reflexivity.
    + assert (Hs := runSelect_done env a w Ht). right.
      rewrite (runLoop_stops env a fuel w Hs). simpl.
      split; [reflexivity|]. split.
      * unfold tickTaken in Ht. apply negb_false_iff, andb_true_iff in Ht.
        apply Ht.
      * exists (awaitLog env w). split.
        -- reflexivity.
        -- apply disconnects_awaitLog.
Qed.

Lemma Run_spec env fuel a w :
  (0 < Interval (cli a))%Z ->
  Run env fuel a w =
  (outcome (runLoop env fuel a (world (fetchAndPublishMetrics env a w))),
   world (runLoop env fuel a (world (fetchAndPublishMetrics env a w))),
   startupLogs a
   ++ events (fetchAndPublishMetrics env a w)
   ++ initialErrorLog (outcome (fetchAndPublishMetrics env a w))
   ++ events (runLoop env fuel a (world (fetchAndPublishMetrics env a w)))
   ++ match outcome (runLoop env fuel a
                       (world (fetchAndPublishMetrics env a w))) with
      | Done (Some _) => [TickerStop]
      | _ => []
      end).
Proof.
  intros Hpos. unfold Run, log.
  do 2 go_step await_spec.
  replace (Interval (cli a) <=? 0)%Z with false
    by (symmetry; apply Z.leb_gt; exact Hpos).
  go_step await_spec.
  destruct (cycle_total env a w) as [err Herr].
  erewrite bind_done by (rewrite <- Herr; apply triple_eta).
  cbv beta iota.
  set (w1 := world (fetchAndPublishMetrics env a w)).
  assert (Hlog : (match err with
                  | Some e => log Error "Initial metrics fetch failed"
                                [("error", FStr e)]
                  | None => ret tt
                  end) w1 = (Done tt, w1, initialErrorLog (Done err)))
    by (destruct err; reflexivity).
  erewrite bind_done by exact Hlog.
  rewrite Herr.
  destruct (runLoop_shape env a fuel w1)
    as [[Hout _] | (Hout & _)].
  - rewrite (bind_outcome _ _ _ Hout).
    rewrite Hout. go_simpl. reflexivity.
  - rewrite (bind_outcome _ _ _ Hout).
    rewrite Hout. go_simpl. reflexivity.
Qed.

Lemma disconnects_initialErrorLog o : disconnects (initialErrorLog o) = [].
Proof. destruct o as [[e|]|msg]; reflexivity. Qed.

(** X8: with a positive interval, [Run] never panics and never returns an
    error.  Watched for any number of passes of its loop, either it is
    still running and has not disconnected the broker client, or it has
    returned [nil]; it has then disconnected exactly once, with a grace
    period of 250 ms, as its last act before the deferred stop of the
    ticker, and the context is cancelled. *)
Theorem Run_ends_in_orderly_shutdown env fuel a w :
  (0 < Interval (cli a))%Z ->
  (outcome (Run env fuel a w) = Done None /\
   disconnects (events (Run env fuel a w)) = []) \/
  (outcome (Run env fuel a w) = Done (Some None) /\
   w_cancelled (world (Run env fuel a w)) = true /\
   exists pre,
     events (Run env fuel a w) = pre ++ shutdownEvents ++ [TickerStop] /\
     disconnects pre = []).
Proof.
  intros Hpos. rewrite (Run_spec env fuel a w Hpos).
  cbn [outcome world events fst snd].
  destruct (runLoop_shape env a fuel (world (fetchAndPublishMetrics env a w)))
    as [[Hout Hd] | (Hout & Hc & pre & Hev & Hpre)].
  - left. split; [exact Hout|]. rewrite Hout.
    rewrite !disconnects_app, disconnects_cycle, disconnects_initialErrorLog,
      Hd. reflexivity.
  - right. split; [exact Hout|]. split; [exact Hc|].
    exists (startupLogs a
            ++ events (fetchAndPublishMetrics env a w)
            ++ initialErrorLog (outcome (fetchAndPublishMetrics env a w))
            ++ pre).
    split.
    + rewrite Hout, Hev. rewrite <- !app_assoc. reflexivity.
    + rewrite !disconnects_app, disconnects_cycle,
        disconnects_initialErrorLog, Hpre. reflexivity.
Qed.

Lemma Run_ends_in_orderly_shutdown_witness :
  outcome (Run (withSignal (Nat.eqb 3) (demoEnv twoSites)) 5 demoApp w0) =
    Done (Some None) /\
  disconnects (events (Run (withSignal (Nat.eqb 3) (demoEnv twoSites))
                         5 demoApp w0)) = [MqttDisconnect 250].
Proof.
  destruct (@Run_ends_in_orderly_shutdown
              (withSignal (Nat.eqb 3) (demoEnv twoSites)) 5 demoApp w0)
    as [[Hout _] | (Hout & _ & pre & Hev & Hpre)].
  - reflexivity.
  - discriminate Hout.
  - split; [exact Hout|]. rewrite Hev.
    rewrite !disconnects_app, Hpre. reflexivity.
Defined.

(** X9: with an interval that is zero or negative, [Run] panics in
    [time.NewTicker], after its two start-up log lines and before any
    fetch: it requests nothing, publishes nothing and changes nothing. *)
Theorem Run_rejects_non_positive_interval env fuel a w :
  (Interval (cli a) <= 0)%Z ->
  Run env fuel a w =
  (Panic "non-positive interval for NewTicker", w, startupLogs a).
Proof.
  intros Hle. unfold Run, log. do 2 go_step await_spec.
  replace (Interval (cli a) <=? 0)%Z with true
    by (symmetry; apply Z.leb_le; exact Hle).
  erewrite bind_panic by reflexivity. reflexivity.
Qed.

(* ------------------------------------------------------------------ *)
(** ** Runs without a signal, and runs after one *)

Lemma httpRequests_publishLoop env a lms w :
  httpRequests (events (forEach lms (publishOne env a) w)) = [].
Proof.
  apply Forall_filter_nil.
  apply (@publishLoop_emits (fun e => isHttp e = false) env);
    try reflexivity.
  apply emitsOnly_await. reflexivity.
Qed.

Lemma cycle_requests env a w :
  httpRequests (events (fetchAndPublishMetrics env a w)) =
  httpRequests (events (GetISPMetrics env (ubiquitiClient a)
                          (MetricType (cli a)) w)).
Proof.
  destruct (GetISPMetrics_total env (ubiquitiClient a) (MetricType (cli a)) w)
    as ([metrics|e] & Hg & _).
  - rewrite (cycle_fetch_ok env a w Hg). cbn [events snd].
    change (?x :: ?l) with ([x] ++ l) at 1.
    rewrite !httpRequests_app, httpRequests_publishLoop. simpl.
    rewrite app_nil_r. reflexivity.
  - rewrite (cycle_fetch_failed env a w Hg). reflexivity.
Qed.

Lemma quiet_await env w :
  (forall n, signal_during env n = false) -> awaitLog env w = [].
Proof. intros Hq. unfold awaitLog. rewrite Hq. reflexivity. Qed.

Lemma quiet_cycle env a w :
  (forall n, signal_during env n = false) ->
  w_cancelled w = false ->
  w_cancelled (world (fetchAndPublishMetrics env a w)) = false.
Proof.
  intros Hq Hw.
  assert (Hs : signalLogs (events (fetchAndPublishMetrics env a w)) = []).
  { apply Forall_filter_nil.
    apply (@cycle_emits (fun e => isSignalLog e = false) env);
      try reflexivity; auto.
    intros w'. rewrite await_spec. cbn [events snd].
    rewrite (quiet_await env w' Hq). constructor. }
  destruct (Cancels_cycle env a w) as [Hlen _].
  rewrite Hs, Hw in Hlen. simpl in Hlen.
  destruct (w_cancelled (world (fetchAndPublishMetrics env a w)));
    [discriminate Hlen | reflexivity].
Qed.

Lemma quiet_runLoop env a fuel : forall w,
  (forall n, signal_during env n = false) ->
  w_cancelled w = false ->
  outcome (runLoop env fuel a w) = Done None /\
  (new_request env (baseURL (ubiquitiClient a) +:+ "/" +:+ MetricType (cli a))
     = None ->
   List.length (httpRequests (events (runLoop env fuel a w))) = fuel).
Proof.
  induction fuel as [|fuel IH]; intros w Hq Hw.
  - split; reflexivity.
  - assert (Ht : tickTaken env w = true).
    { unfold tickTaken. simpl. rewrite Hw, Hq. reflexivity. }
    assert (Hs := runSelect_tick env a w Ht).
    assert (Ho : outcome (runSelect env a w) = Done None)
      by (rewrite Hs; reflexivity).
    assert (Hw1 : w_cancelled (world (runSelect env a w)) = false).
    { rewrite Hs. cbn [world fst snd]. apply quiet_cycle; [exact Hq|].
      simpl. rewrite Hw, Hq. reflexivity. }
    destruct (IH (world (runSelect env a w)) Hq Hw1) as [IHo IHn].
    rewrite (runLoop_continues env a fuel w Ho). cbn [outcome events fst snd].
    split; [exact IHo|]. intros Hreq.
    rewrite httpRequests_app, length_app, (IHn Hreq).
    rewrite Hs. cbn [events snd].
    rewrite !httpRequests_app, httpRequests_awaitLog, cycle_requests,
      GetISPMetrics_requests, Hreq.
    destruct (outcome (fetchAndPublishMetrics env a (afterAwait env w)))
      as [[e|]|msg]; reflexivity.
Qed.

(** X10: as long as no signal arrives, [Run] does not return: from a state
    in which the context is live and with a positive interval, however
    many passes of its loop are watched, it is still running and has not
    disconnected; and when the request can be built, it has made one HTTP
    request per pass, plus the one of its first cycle. *)
Theorem Run_keeps_polling_without_signal env fuel a w :
  (forall n, signal_during env n = false) ->
  w_cancelled w = false ->
  (0 < Interval (cli a))%Z ->
  outcome (Run env fuel a w) = Done None /\
  disconnects (events (Run env fuel a w)) = [] /\
  (new_request env (baseURL (ubiquitiClient a) +:+ "/" +:+ MetricType (cli a))
     = None ->
   List.length (httpRequests (events (Run env fuel a w))) = S fuel).
Proof.
  intros Hq Hw Hpos.
  assert (Hw1 := quiet_cycle env a w Hq Hw).
  destruct (quiet_runLoop env a fuel
              (world (fetchAndPublishMetrics env a w)) Hq Hw1) as [Ho Hn].
  assert (Hd : disconnects (events (Run env fuel a w)) = []).
  { apply Forall_filter_nil. rewrite (Run_spec env fuel a w Hpos).
    cbn [events snd]. rewrite Ho.
    repeat (apply Forall_app; split).
    - repeat constructor.
    - apply (@cycle_emits (fun e => isDisconnect e = false) env);
        try reflexivity.
      apply emitsOnly_await. reflexivity.
    - destruct (outcome (fetchAndPublishMetrics env a w)) as [[e|]|msg];
        repeat constructor.
    - destruct (runLoop_shape env a fuel
                  (world (fetchAndPublishMetrics env a w)))
        as [[_ Hdl] | (Hout & _)].
      + clear -Hdl. revert Hdl. generalize (events (runLoop env fuel a
                  (world (fetchAndPublishMetrics env a w)))).
        induction l as [|e l IHl]; intros Hdl; [constructor|].
        unfold disconnects in Hdl. simpl in Hdl.
        destruct (isDisconnect e) eqn:He; [discriminate Hdl|].
        constructor; [exact He | apply IHl; exact Hdl].
      + rewrite Ho in Hout. discriminate Hout.
    - constructor. }
  rewrite (Run_spec env fuel a w Hpos) in *.
  cbn [outcome events fst snd] in *.
  split; [exact Ho|]. split; [exact Hd|]. intros Hreq.
  rewrite Ho. rewrite !httpRequests_app, !length_app, (Hn Hreq).
  rewrite cycle_requests, GetISPMetrics_requests, Hreq.
  destruct (outcome (fetchAndPublishMetrics env a w)) as [[e|]|msg];
    simpl; lia.
Qed.

Lemma Run_keeps_polling_without_signal_witness :
  outcome (Run (demoEnv twoSites) 4 demoApp w0) = Done None /\
  disconnects (events (Run (demoEnv twoSites) 4 demoApp w0)) = [] /\
  List.length (httpRequests (events (Run (demoEnv twoSites) 4 demoApp w0))) =
    5%nat.
Proof.
  destruct (@Run_keeps_polling_without_signal (demoEnv twoSites) 4 demoApp w0)
    as (H1 & H2 & H3); try reflexivity.
  split; [exact H1|]. split; [exact H2|]. apply H3. reflexivity.
Defined.

Lemma cancelled_cycle env a w :
  w_cancelled w = true ->
  (forall n, exists e, http_do env n true = NetErr e) ->
  (exists e, outcome (fetchAndPublishMetrics env a w) = Done (Some e)) /\
  publishes (events (fetchAndPublishMetrics env a w)) = [].
Proof.
  intros Hw Ht.
  assert (Hg : exists e,
    outcome (GetISPMetrics env (ubiquitiClient a) (MetricType (cli a)) w) =
    Done (Err e)).
  { rewrite GetISPMetrics_spec. cbv zeta.
    destruct (new_request env _) as [e|]; [eexists; reflexivity|].
    simpl. rewrite Hw. simpl.
    destruct (Ht (w_ops w)) as [e He]. rewrite He. eexists. reflexivity. }
  destruct Hg as [e Hg].
  destruct (GetISPMetrics_total env (ubiquitiClient a) (MetricType (cli a)) w)
    as (r & _ & Hp & _).
  rewrite (cycle_fetch_failed env a w Hg). simpl.
  split; [eexists; reflexivity | exact Hp].
Qed.

(** X11: once the context is cancelled, and with a transport that gives
    up on a request whose context is cancelled (as that of [net/http]
    does), nothing is published any more: a cycle started in such a state
    fails at its fetch and hands the broker client nothing, and so does
    the loop of [Run] for as many passes as the [select] still gives to
    the ticker. *)
Theorem no_publish_once_cancelled env a w :
  w_cancelled w = true ->
  (forall n, exists e, http_do env n true = NetErr e) ->
  (exists e, outcome (fetchAndPublishMetrics env a w) = Done (Some e)) /\
  publishes (events (fetchAndPublishMetrics env a w)) = [] /\
  forall fuel, publishes (events (runLoop env fuel a w)) = [].
Proof.
  intros Hw Ht.
  destruct (cancelled_cycle env a w Hw Ht) as [He Hp].
  split; [exact He|]. split; [exact Hp|].
  intros fuel. revert w Hw He Hp.
  induction fuel as [|fuel IH]; intros w Hw _ _; [reflexivity|].
  destruct (tickTaken env w) eqn:Htick.
  - assert (Hs := runSelect_tick env a w Htick).
    assert (Ho : outcome (runSelect env a w) = Done None)
      by (rewrite Hs; reflexivity).
    assert (Hw1 : w_cancelled (world (runSelect env a w)) = true)
      by (apply Cancels_runSelect; exact Hw).
    assert (Hwa : w_cancelled (afterAwait env w) = true)
      by (simpl; rewrite Hw; reflexivity).
    destruct (cancelled_cycle env a (afterAwait env w) Hwa Ht) as [He1 Hp1].
    destruct (cancelled_cycle env a (world (runSelect env a w)) Hw1 Ht)
      as [He2 Hp2].
    rewrite (runLoop_continues env a fuel w Ho). cbn [events snd].
    rewrite publishes_app, (IH _ Hw1 He2 Hp2), app_nil_r.
    rewrite Hs. cbn [events snd].
    rewrite !publishes_app, publishes_awaitLog, Hp1.
    destruct (outcome (fetchAndPublishMetrics env a (afterAwait env w)))
      as [[e|]|msg]; reflexivity.
  - rewrite (runLoop_stops env a fuel w (runSelect_done env a w Htick)).
    cbn [events snd]. rewrite publishes_app, publishes_awaitLog. reflexivity.
Qed.

Lemma no_publish_once_cancelled_witness :
  publishes (events (runLoop (tickFirst (demoEnv twoSites)) 3 demoApp
                       wCancelled)) = [] /\
  List.length (httpRequests
                 (events (runLoop (tickFirst (demoEnv twoSites)) 3 demoApp
                            wCancelled))) = 3%nat.
Proof.
  split; [|reflexivity].
  apply (@no_publish_once_cancelled (tickFirst (demoEnv twoSites)) demoApp
           wCancelled).
  - reflexivity.
  - intros n. eexists. reflexivity.
Defined.

(* ------------------------------------------------------------------ *)
(** ** The results of the two publish paths *)

(** X12: [PublishLatency] returns an error in two cases only.  When the
    record cannot be encoded it returns the wrapped encoding error
    without having logged, handed anything to the broker client or
    changed the state.  When the broker reports an error for the publish
    it returns that error wrapped, the request having been handed over.
    It returns [nil] exactly when the record can be encoded and the
    broker reports no error. *)
Theorem PublishLatency_result env p m base w :
  (outcome (PublishLatency env p m base w) = Done None <->
   (exists payload, json_Marshal env m = Ok payload) /\
   broker_ack env (w_ops w) = None) /\
  (forall e, json_Marshal env m = Err e ->
     PublishLatency env p m base w =
     (Done (Some ("failed to marshal latency metric: " +:+ e)), w, [])) /\
  (forall payload e,
     json_Marshal env m = Ok payload -> broker_ack env (w_ops w) = Some e ->
     outcome (PublishLatency env p m base w) =
       Done (Some ("failed to publish latency to MQTT: " +:+ e)) /\
     publishes (events (PublishLatency env p m base w)) =
       [MqttPublish (latencyTopic base (lm_SiteId m)) 0 false payload]).
Proof.
  split; [|split].
  - rewrite PublishLatency_spec.
    destruct (json_Marshal env m) as [payload|e]; simpl.
    + destruct (broker_ack env (w_ops w)) as [e|]; simpl.
      * split; [discriminate | intros [_ H]; discriminate H].
      * split; [intros _; split; [eexists|]; reflexivity | reflexivity].
    + split; [discriminate | intros [[payload H] _]; discriminate H].
  - intros e He. rewrite PublishLatency_spec, He. reflexivity.
  - intros payload e Hm Ha. split.
    + rewrite PublishLatency_spec, Hm, Ha. reflexivity.
    + rewrite PublishLatency_publishes. unfold publishRequest.
      rewrite Hm. reflexivity.
Qed.

Lemma PublishLatency_result_witness :
  outcome (PublishLatency deadBroker (mqttPublisher demoApp)
             (recordOf siteA p_new 1700000000) "ubiquiti/isp-metrics" w0) =
    Done (Some ("failed to publish latency to MQTT: " +:+ "not connected")) /\
  List.length
    (publishes (events (PublishLatency deadBroker (mqttPublisher demoApp)
                          (recordOf siteA p_new 1700000000)
                          "ubiquiti/isp-metrics" w0))) = 1%nat.
Proof.
  destruct (PublishLatency_result deadBroker (mqttPublisher demoApp)
              (recordOf siteA p_new 1700000000) "ubiquiti/isp-metrics" w0)
    as (_ & _ & H).
  edestruct H as [H1 H2]; [reflexivity | reflexivity |].
  split; [exact H1|]. rewrite H2. reflexivity.
Defined.

Lemma Publish_spec marshal env p metrics w :
  Publish marshal env p metrics w =
  match marshal metrics with
  | Err e => (Done (Some ("failed to marshal metrics: " +:+ e)), w, [])
  | Ok payload =>
      (Done match broker_ack env (w_ops w) with
            | Some e => Some ("failed to publish to MQTT: " +:+ e)
            | None => None
            end,
       afterAwait env w,
       [Log Debug "Publishing metrics to MQTT"
          [("topic", FStr (topic p));
           ("payload_size", FInt (Z.of_nat (String.length payload)))];
        MqttPublish (topic p) 0 false payload]
       ++ awaitLog env w)
  end.
Proof.
  unfold Publish.
  destruct (marshal metrics) as [payload|e]; [|reflexivity].
  unfold log. do 3 go_step await_spec.
  destruct (broker_ack env (w_ops w)); go_simpl; rewrite app_nil_r;
    reflexivity.
Qed.

(** X13: the whole-envelope [Publish] hands the broker client at most one
    request, for the publisher's own fixed topic whatever the envelope
    holds, at QoS 0 and not retained, with the encoded envelope as
    payload, and none when the envelope cannot be encoded.  It returns
    [nil] exactly when the envelope can be encoded and the broker reports
    no error, and it never reads the clock. *)
Theorem Publish_sends_envelope_to_fixed_topic marshal env p metrics w :
  publishes (events (Publish marshal env p metrics w)) =
    match marshal metrics with
    | Ok payload => [MqttPublish (topic p) 0 false payload]
    | Err _ => []
    end /\
  (outcome (Publish marshal env p metrics w) = Done None <->
   (exists payload, marshal metrics = Ok payload) /\
   broker_ack env (w_ops w) = None) /\
  w_clock (world (Publish marshal env p metrics w)) = w_clock w.
Proof.
  rewrite Publish_spec.
  destruct (marshal metrics) as [payload|e]; simpl.
  - change (filter isPublish ?l) with (publishes l).
    rewrite publishes_awaitLog. split; [reflexivity|]. split; [|reflexivity].
    destruct (broker_ack env (w_ops w)) as [e|].
    + split; [discriminate | intros [_ H]; discriminate H].
    + split; [intros _; split; [eexists|]; reflexivity | reflexivity].
  - split; [reflexivity|]. split; [|reflexivity].
    split; [discriminate | intros [[payload H] _]; discriminate H].
Qed.

(** X14: the cycle that publishes the whole envelope reports a publish
    failure to its caller, unlike the per-site cycle: after a successful
    fetch it returns [nil] exactly when the envelope can be encoded and
    the broker reports no error, and otherwise an error that wraps the one
    of [Publish]; it hands the broker client the one request of [Publish]
    after a successful fetch and nothing after a failed one. *)
Theorem envelope_cycle_reports_publish_failure marshal env a w :
  let g := GetISPMetrics env (ubiquitiClient a) (MetricType (cli a)) w in
  (forall e, outcome g = Done (Err e) ->
     outcome (fetchAndPublishEnvelope marshal env a w) =
       Done (Some ("failed to fetch ISP metrics: " +:+ e)) /\
     publishes (events (fetchAndPublishEnvelope marshal env a w)) = []) /\
  (forall metrics, outcome g = Done (Ok metrics) ->
     outcome (fetchAndPublishEnvelope marshal env a w) =
       match outcome (Publish marshal env (mqttPublisher a) metrics (world g)) with
       | Done (Some e) =>
           Done (Some ("failed to publish metrics to MQTT: " +:+ e))
       | o => o
       end /\
     (outcome (fetchAndPublishEnvelope marshal env a w) = Done None <->
      (exists payload, marshal metrics = Ok payload) /\
      broker_ack env (w_ops (world g)) = None) /\
     publishes (events (fetchAndPublishEnvelope marshal env a w)) =
       match marshal metrics with
       | Ok payload => [MqttPublish (topic (mqttPublisher a)) 0 false payload]
       | Err _ => []
       end).
Proof.
  intros g.
  destruct (GetISPMetrics_total env (ubiquitiClient a) (MetricType (cli a)) w)
    as (r & _ & Hp & _). fold g in Hp.
  split.
  - intros e Hg. unfold fetchAndPublishEnvelope, log.
    go_step await_spec. rewrite (bind_outcome _ _ _ Hg).
    go_simpl. rewrite app_nil_r. split; [reflexivity | exact Hp].
  - intros metrics Hg.
    assert (Hrun : fetchAndPublishEnvelope marshal env a w =
      (match outcome (Publish marshal env (mqttPublisher a) metrics (world g)) with
       | Done (Some e) =>
           Done (Some ("failed to publish metrics to MQTT: " +:+ e))
       | o => o
       end,
       world (Publish marshal env (mqttPublisher a) metrics (world g)),
       Log Debug "Fetching ISP metrics from Ubiquiti API" []
       :: events g
       ++ Log Debug "Metrics fetched successfully"
            [("periods_count", FInt (len (im_Data metrics)))]
       :: events (Publish marshal env (mqttPublisher a) metrics (world g))
       ++ match outcome (Publish marshal env (mqttPublisher a) metrics
                           (world g)) with
          | Done None =>
              [Log Info "Metrics fetched and published successfully" []]
          | _ => []
          end)).
    { unfold fetchAndPublishEnvelope, log.
      go_step await_spec. rewrite (bind_outcome _ _ _ Hg). cbv beta iota.
      go_step await_spec. fold g.
      assert (Herr : exists err,
        outcome (Publish marshal env (mqttPublisher a) metrics (world g)) =
        Done err).
      { rewrite Publish_spec. destruct (marshal metrics); eexists; reflexivity. }
      destruct Herr as [err Herr].
      rewrite (bind_outcome _ _ _ Herr). rewrite Herr.
      destruct err; go_simpl; rewrite ?app_nil_r; reflexivity. }
    rewrite Hrun. cbn [outcome events fst snd].
    split; [reflexivity|]. rewrite Publish_spec.
    destruct (marshal metrics) as [payload|e]; cbn [outcome events fst snd].
    + split.
      * destruct (broker_ack env (w_ops (world g))) as [e|].
        -- split; [discriminate | intros [_ H]; discriminate H].
        -- split; [intros _; split; [eexists|]; reflexivity | reflexivity].
      * change (?x :: ?l ++ ?y :: ?t) with (([x] ++ l) ++ [y] ++ t).
        rewrite !publishes_app, Hp, publishes_awaitLog. simpl.
        destruct (broker_ack env (w_ops (world g))); reflexivity.
    + split.
      * split; [discriminate | intros [[payload H] _]; discriminate H].
      * change (?x :: ?l ++ ?y :: ?t) with (([x] ++ l) ++ [y] ++ t).
        rewrite !publishes_app, Hp. reflexivity.
Qed.

Lemma envelope_cycle_reports_publish_failure_witness :
  outcome (fetchAndPublishEnvelope envelopeEncoder deadBroker demoApp w0) =
    Done (Some ("failed to publish metrics to MQTT: " +:+
                "failed to publish to MQTT: not connected")) /\
  publishedTopics
    (events (fetchAndPublishEnvelope envelopeEncoder deadBroker demoApp w0)) =
    ["ubiquiti/isp-metrics"].
Proof.
  destruct (envelope_cycle_reports_publish_failure envelopeEncoder deadBroker
              demoApp w0) as [_ H].
  destruct (H twoSites eq_refl) as (H1 & _ & H3).
  split; [exact H1|].
  assert (Ht : forall evs, publishedTopics (publishes evs) = publishedTopics evs).
  { induction evs as [|e evs IH]; [reflexivity|].
    destruct e; simpl; rewrite ?IH; reflexivity. }
  rewrite <- Ht, H3. reflexivity.
Defined.

(* ------------------------------------------------------------------ *)
(** ** Start-up *)

Lemma clientOptions_fields c :
  Servers (clientOptions c) = [MqttBroker c] /\
  ClientID (clientOptions c) = MqttClientID c /\
  Username (clientOptions c) = MqttUsername c /\
  Password (clientOptions c) = MqttPassword c.
Proof.
  unfold clientOptions.
  destruct (MqttUsername c =? EmptyString)%string eqn:Hu;
    destruct (MqttPassword c =? EmptyString)%string eqn:Hp; simpl;
    try apply String.eqb_eq in Hu; try apply String.eqb_eq in Hp;
    repeat split; congruence.
Qed.

Lemma NewApp_spec connect c :
  NewApp connect c =
  match connect (clientOptions c) with
  | Some e =>
      Err ("failed to create MQTT publisher: " +:+
           "failed to connect to MQTT broker: " +:+ e)
  | None =>
      Ok {| cli := c;
            ubiquitiClient := {| apiKey := ApiKey c; baseURL := ApiURL c |};
            mqttPublisher := {| topic := MqttTopic c |} |}
  end.
Proof.
  unfold NewApp, NewMQTTPublisher.
  destruct (connect (clientOptions c)); reflexivity.
Qed.

(** X15: [NewApp] connects with the configured broker address, client id,
    user name and password, each exactly as configured, empty or not (the
    guards on the empty user name and password change nothing).  It
    succeeds exactly when the broker accepts the connection; the
    application it returns then fetches from the configured URL with the
    configured key, and its publisher's own topic is the configured base
    topic, the one its cycles publish under.  When the broker refuses, it
    returns the refusal wrapped twice and no application. *)
Theorem NewApp_wires_configuration connect c :
  (Servers (clientOptions c) = [MqttBroker c] /\
   ClientID (clientOptions c) = MqttClientID c /\
   Username (clientOptions c) = MqttUsername c /\
   Password (clientOptions c) = MqttPassword c) /\
  match NewApp connect c with
  | Ok a =>
      connect (clientOptions c) = None /\
      cli a = c /\
      baseURL (ubiquitiClient a) = ApiURL c /\
      apiKey (ubiquitiClient a) = ApiKey c /\
      topic (mqttPublisher a) = MqttTopic (cli a)
  | Err e =>
      exists e', connect (clientOptions c) = Some e' /\
        e = "failed to create MQTT publisher: " +:+
            "failed to connect to MQTT broker: " +:+ e'
  end.
Proof.
  split; [apply clientOptions_fields|].
  rewrite NewApp_spec.
  destruct (connect (clientOptions c)) as [e|].
  - exists e. split; reflexivity.
  - repeat split; reflexivity.
Qed.

Lemma publishedTopics_publishes evs :
  publishedTopics (publishes evs) = publishedTopics evs.
Proof.
  induction evs as [|e evs IH]; [reflexivity|].
  destruct e; simpl; rewrite ?IH; reflexivity.
Qed.

Lemma cycle_topics env a w tpc :
  In tpc (publishedTopics (events (fetchAndPublishMetrics env a w))) ->
  exists site, tpc = latencyTopic (MqttTopic (cli a)) site.
Proof.
  rewrite <- publishedTopics_publishes.
  destruct (GetISPMetrics_total env (ubiquitiClient a) (MetricType (cli a)) w)
    as ([metrics|e] & Hg & Hp & _).
  - rewrite (cycle_publishes_ok env a w Hg).
    generalize (latestFrom env
       (w_clock (world (GetISPMetrics env (ubiquitiClient a)
                          (MetricType (cli a)) w))) (im_Data metrics)).
    induction l as [|m rest IH]; simpl; [tauto|].
    rewrite publishedTopics_app. intros H. apply in_app_or in H.
    destruct H as [H|H]; [|apply IH; exact H].
    unfold publishRequest in H.
    destruct (json_Marshal env m); simpl in H; [|tauto].
    destruct H as [<-|[]]. eexists. reflexivity.
  - rewrite (cycle_fetch_failed env a w Hg). simpl.
    change (filter isPublish ?l) with (publishes l). rewrite Hp.
    simpl. tauto.
Qed.

(** X16: a cycle of an application made by [NewApp] uses the configured
    end points: its HTTP request, if the request can be built, is a GET of
    [ApiURL + "/" + MetricType] with the configured API key, and every
    topic it publishes to is [MqttTopic + "/" + site + "/latency"] for
    some site id. *)
Theorem configured_endpoints_are_used connect c env a w :
  NewApp connect c = Ok a ->
  httpRequests (events (fetchAndPublishMetrics env a w)) =
    match new_request env (ApiURL c +:+ "/" +:+ MetricType c) with
    | Some _ => []
    | None =>
        [HttpDo "GET" (ApiURL c +:+ "/" +:+ MetricType c)
           [("X-API-KEY", ApiKey c); ("Accept", "application/json")]]
    end /\
  forall tpc,
    In tpc (publishedTopics (events (fetchAndPublishMetrics env a w))) ->
    exists site, tpc = MqttTopic c +:+ "/" +:+ site +:+ "/latency".
Proof.
  rewrite NewApp_spec.
  destruct (connect (clientOptions c)); [discriminate|].
  intros H. injection H as <-. split.
  - rewrite cycle_requests, GetISPMetrics_requests. reflexivity.
  - intros tpc Hin. apply cycle_topics in Hin. exact Hin.
Qed.

Lemma configured_endpoints_are_used_witness :
  httpRequests (events (fetchAndPublishMetrics (demoEnv twoSites) demoApp w0)) =
    [HttpDo "GET" "https://api.ui.com/ea/isp-metrics/5m"
       [("X-API-KEY", "key"); ("Accept", "application/json")]].
Proof.
  apply (@configured_endpoints_are_used acceptingBroker (cli demoApp)
           (demoEnv twoSites) demoApp w0).
  reflexivity.
Defined.

Lemma Run_panics env fuel a w :
  (Interval (cli a) <= 0)%Z ->
  outcome (Run env fuel a w) = Panic "non-positive interval for NewTicker" /\
  events (Run env fuel a w) = startupLogs a /\
  world (Run env fuel a w) = w.
Proof.
  intros Hle. unfold Run, log. do 2 go_step await_spec.
  replace (Interval (cli a) <=? 0)%Z with true
    by (symmetry; apply Z.leb_le; exact Hle).
  erewrite bind_panic by reflexivity. repeat split.
Qed.

Lemma main_spec parseLevel connect env fuel c w :
  parseLevel (LogLevel c) = None ->
  connect (clientOptions c) = None ->
  (0 < Interval c)%Z ->
  let a := {| cli := c;
              ubiquitiClient := {| apiKey := ApiKey c; baseURL := ApiURL c |};
              mqttPublisher := {| topic := MqttTopic c |} |} in
  let run := Run env fuel a (withLiveContext w) in
  (outcome run = Done None /\
   main parseLevel connect env fuel c w =
   (Done None, world run, events run)) \/
  (outcome run = Done (Some None) /\
   main parseLevel connect env fuel c w =
   (Done (Some Exit0), world run,
    events run ++ [Log Info "Application shutdown complete" []])).
Proof.
  intros Hl Hc Hpos a run. unfold main. rewrite Hl, NewApp_spec, Hc. fold a.
  unfold context_WithCancel. erewrite bind_done by reflexivity. fold run.
  assert (Hout : outcome run = Done None \/ outcome run = Done (Some None)).
  { unfold run. rewrite (Run_spec env fuel a (withLiveContext w) Hpos).
    cbn [outcome fst].
    destruct (runLoop_shape env a fuel
                (world (fetchAndPublishMetrics env a (withLiveContext w))))
      as [[Hout _] | (Hout & _)]; [left | right]; exact Hout. }
  destruct Hout as [Hout | Hout]; [left | right];
    (split; [exact Hout|]);
    unfold run in *; rewrite (bind_outcome _ _ _ Hout); go_simpl;
    rewrite ?app_nil_r; reflexivity.
Qed.

Lemma main_panics parseLevel connect env fuel c w :
  parseLevel (LogLevel c) = None ->
  connect (clientOptions c) = None ->
  (Interval c <= 0)%Z ->
  outcome (main parseLevel connect env fuel c w) =
  Panic "non-positive interval for NewTicker".
Proof.
  intros Hl Hc Hle. unfold main. rewrite Hl, NewApp_spec, Hc.
  unfold context_WithCancel. erewrite bind_done by reflexivity.
  destruct (Run_panics env fuel
              {| cli := c;
                 ubiquitiClient :=
                   {| apiKey := ApiKey c; baseURL := ApiURL c |};
                 mqttPublisher := {| topic := MqttTopic c |} |}
              (withLiveContext w) Hle) as (Hp & _ & _).
  unfold bind.
  destruct (Run env fuel _ (withLiveContext w)) as [[o w1] evs].
  simpl in Hp. subst o. reflexivity.
Qed.

(** X17: [main] ends in a fatal log only at start-up: either the log
    level does not parse ("Invalid log level"), or the level parses and
    the broker refuses the connection ("Failed to create application",
    with the refusal wrapped twice).  In both cases nothing has been
    logged by the application, requested or published.  The third fatal
    exit of [main], "Application failed", is never taken. *)
Theorem main_is_fatal_only_at_startup parseLevel connect env fuel c w msg e :
  outcome (main parseLevel connect env fuel c w) = Done (Some (Fatal msg e)) ->
  events (main parseLevel connect env fuel c w) = [] /\
  world (main parseLevel connect env fuel c w) = w /\
  ((msg = "Invalid log level" /\ parseLevel (LogLevel c) = Some e) \/
   (msg = "Failed to create application" /\
    parseLevel (LogLevel c) = None /\
    exists e', connect (clientOptions c) = Some e' /\
      e = "failed to create MQTT publisher: " +:+
          "failed to connect to MQTT broker: " +:+ e')).
Proof.
  destruct (parseLevel (LogLevel c)) as [el|] eqn:Hl.
  - unfold main. rewrite Hl. simpl. intros H. injection H as <- <-.
    repeat split. left. split; reflexivity.
  - destruct (connect (clientOptions c)) as [ec|] eqn:Hc.
    + unfold main. rewrite Hl, NewApp_spec, Hc. simpl.
      intros H. injection H as <- <-. repeat split. right.
      split; [reflexivity|]. split; [reflexivity|].
      exists ec. split; reflexivity.
    + destruct (Z.lt_ge_cases 0 (Interval c)) as [Hpos | Hle].
      * destruct (main_spec parseLevel connect env fuel c w Hl Hc Hpos)
          as [[_ Hm] | [_ Hm]]; rewrite Hm; simpl; discriminate.
      * rewrite (main_panics parseLevel connect env fuel c w Hl Hc Hle).
        discriminate.
Qed.

Lemma main_is_fatal_only_at_startup_witness :
  events (main knownLevel refusingBroker (demoEnv twoSites) 3
            (cli demoApp) w0) = [] /\
  world (main knownLevel refusingBroker (demoEnv twoSites) 3
           (cli demoApp) w0) = w0.
Proof.
  destruct (@main_is_fatal_only_at_startup knownLevel refusingBroker
              (demoEnv twoSites) 3 (cli demoApp) w0
              "Failed to create application"
              ("failed to create MQTT publisher: " +:+
               "failed to connect to MQTT broker: " +:+ "connection refused"))
    as (H1 & H2 & _).
  - reflexivity.
  - split; [exact H1 | exact H2].
Defined.

(** X18: when [main] returns normally, the log level had parsed, the
    broker had accepted the connection and the interval was positive; a
    shutdown signal has been received, exactly once, and the context is
    cancelled; the broker client has been disconnected exactly once; and
    the run ends with the shutdown of [Run] (its two log lines, the
    disconnection, the stop of the ticker) followed by "Application
    shutdown complete". *)
Theorem main_exits_after_orderly_shutdown parseLevel connect env fuel c w :
  outcome (main parseLevel connect env fuel c w) = Done (Some Exit0) ->
  parseLevel (LogLevel c) = None /\
  connect (clientOptions c) = None /\
  (0 < Interval c)%Z /\
  w_cancelled (world (main parseLevel connect env fuel c w)) = true /\
  List.length (signalLogs (events (main parseLevel connect env fuel c w))) =
    1%nat /\
  exists pre,
    events (main parseLevel connect env fuel c w) =
      pre ++ shutdownEvents
      ++ [TickerStop; Log Info "Application shutdown complete" []] /\
    disconnects pre = [].
Proof.
  destruct (parseLevel (LogLevel c)) as [el|] eqn:Hl;
    [unfold main; rewrite Hl; discriminate|].
  destruct (connect (clientOptions c)) as [ec|] eqn:Hc;
    [unfold main; rewrite Hl, NewApp_spec, Hc; discriminate|].
  destruct (Z.lt_ge_cases 0 (Interval c)) as [Hpos | Hle].
  - set (a := {| cli := c;
                 ubiquitiClient :=
                   {| apiKey := ApiKey c; baseURL := ApiURL c |};
                 mqttPublisher := {| topic := MqttTopic c |} |}).
    destruct (main_spec parseLevel connect env fuel c w Hl Hc Hpos)
      as [[_ Hm] | [Hout Hm]]; fold a in Hm; [|fold a in Hout];
      rewrite Hm; cbn [outcome world events fst snd]; [discriminate|].
    intros _. repeat (split; [first [reflexivity | exact Hpos]|]).
    assert (Hpos' : (0 < Interval (cli a))%Z) by exact Hpos.
    assert (Hshape :
      w_cancelled (world (Run env fuel a (withLiveContext w))) = true /\
      exists pre,
        events (Run env fuel a (withLiveContext w)) =
          pre ++ shutdownEvents ++ [TickerStop] /\
        disconnects pre = []).
    { rewrite (Run_spec env fuel a (withLiveContext w) Hpos') in *.
      cbn [outcome world events fst snd] in *.
      destruct (runLoop_shape env a fuel
                  (world (fetchAndPublishMetrics env a (withLiveContext w))))
        as [[Ho _] | (Ho & Hcan & pre & Hev & Hpre)];
        [rewrite Ho in Hout; discriminate Hout|].
      split; [exact Hcan|].
      exists (startupLogs a
              ++ events (fetchAndPublishMetrics env a (withLiveContext w))
              ++ initialErrorLog
                   (outcome (fetchAndPublishMetrics env a (withLiveContext w)))
              ++ pre).
      split.
      - rewrite Ho, Hev. rewrite <- !app_assoc. reflexivity.
      - rewrite !disconnects_app, disconnects_cycle,
          disconnects_initialErrorLog, Hpre. reflexivity. }
    destruct Hshape as (Hcan & pre & Hev & Hpre).
    split; [exact Hcan|]. split.
    + destruct (Cancels_Run env a fuel (withLiveContext w)) as [Hlen _].
      rewrite Hcan in Hlen. simpl in Hlen.
      rewrite signalLogs_app, length_app, Hlen. reflexivity.
    + exists pre. split; [|exact Hpre].
      rewrite Hev, <- !app_assoc. reflexivity.
  - rewrite (main_panics parseLevel connect env fuel c w Hl Hc Hle).
    discriminate.
Qed.

Lemma main_exits_after_orderly_shutdown_witness :
  w_cancelled
    (world (main knownLevel acceptingBroker
              (withSignal (Nat.eqb 3) (demoEnv twoSites)) 5 (cli demoApp) w0))
    = true /\
  last (events (main knownLevel acceptingBroker
                  (withSignal (Nat.eqb 3) (demoEnv twoSites)) 5
                  (cli demoApp) w0)) TickerStop =
    Log Info "Application shutdown complete" [].
Proof.
  destruct (@main_exits_after_orderly_shutdown knownLevel acceptingBroker
              (withSignal (Nat.eqb 3) (demoEnv twoSites)) 5 (cli demoApp) w0)
    as (_ & _ & _ & Hc & _ & pre & Hev & _).
  - reflexivity.
  - split; [exact Hc|]. rewrite Hev.
    change (pre ++ shutdownEvents
            ++ [TickerStop; Log Info "Application shutdown complete" []])
      with (pre ++ (shutdownEvents ++ [TickerStop])
            ++ [Log Info "Application shutdown complete" []]).
    rewrite !app_assoc. apply last_last.
Defined.

(* ------------------------------------------------------------------ *)
(** ** The extra properties on the sample deployment *)

Lemma fetch_makes_one_request_witness :
  GetISPMetrics badUrl (ubiquitiClient demoApp) "5m" w0 =
  (Done (Err ("failed to create request: " +:+ "missing protocol scheme")),
   w0, []).
Proof.
  eapply fetch_makes_one_request. reflexivity.
Defined.

Lemma shutdown_signal_handled_once_witness :
  w_cancelled (world (Run (demoEnv twoSites) 2 demoApp wCancelled)) = true.
Proof.
  apply (shutdown_signal_handled_once (demoEnv twoSites) 2 demoApp wCancelled).
  reflexivity.
Defined.

Lemma Run_rejects_non_positive_interval_witness :
  Run (demoEnv twoSites) 3 idleApp w0 =
  (Panic "non-positive interval for NewTicker", w0, startupLogs idleApp).
Proof.
  apply (@Run_rejects_non_positive_interval (demoEnv twoSites) 3 idleApp w0).
  discriminate.
Defined.

Lemma Publish_sends_envelope_to_fixed_topic_witness :
  outcome (Publish envelopeEncoder (demoEnv twoSites) (mqttPublisher demoApp)
             twoSites w0) = Done None.
Proof.
  apply (Publish_sends_envelope_to_fixed_topic envelopeEncoder
           (demoEnv twoSites) (mqttPublisher demoApp) twoSites w0).
  split; [eexists|]; reflexivity.
Defined.
